(** * BrookIntegrateVerletStepKernel: the Verlet step kernel of the Brook platform

    A shallow embedding of
    [platforms/brook/src/BrookIntegrateVerletStepKernel.cpp]: the kernel's
    constructor, [initialize] and [execute], over the collaborator classes
    it drives ([System], [VerletIntegrator], [BrookVerletDynamics],
    [BrookShakeAlgorithm], [OpenMMBrookInterface]).

    C++ [double] is IEEE binary64, modelled bit-exactly with the Standard
    Library's [SpecFloat].  Method calls on the collaborators run in a small
    state-and-exception monad that also records every call made. *)

From Stdlib Require Import ZArith List String Ascii Bool Lia SpecFloat.
From Stdlib Require DecimalString.
From stdpp Require Import base list.
Import ListNotations.

Local Open Scope Z_scope.

(** ** IEEE binary64 *)

Module FP.

Definition double : Type := spec_float.

Definition prec : Z := 53.
Definition emax : Z := 1024.

Definition zero : double := S754_zero false.
Definition ofZ (z : Z) : double := binary_normalize prec emax z 0 false.
Definition one : double := ofZ 1.

Definition add : double -> double -> double := SFadd prec emax.
Definition sub : double -> double -> double := SFsub prec emax.
Definition mul : double -> double -> double := SFmul prec emax.
Definition div : double -> double -> double := SFdiv prec emax.

(** [fabs] of <math.h>. *)
Definition fabs : double -> double := SFabs.

(** The C++ comparisons; each is false as soon as an operand is NaN. *)
Definition ltb : double -> double -> bool := SFltb.
Definition leb : double -> double -> bool := SFleb.
Definition eqb : double -> double -> bool := SFeqb.
Definition gtb (a b : double) : bool := SFltb b a.

(** The decimal literal [m]e[e], correctly rounded.  For a negative
    exponent the literal is the quotient of two integers that binary64
    holds exactly (as long as [m] and [10^-e] are below [2^53]), and IEEE
    division rounds that quotient correctly. *)
Definition decimal (m e : Z) : double :=
  if e <? 0 then div (ofZ m) (ofZ (10 ^ (- e))) else ofZ (m * 10 ^ e).

(** Rounding a binary64 value to binary32, the conversion [(float) x]. *)
Definition roundToSingle (x : double) : spec_float :=
  match x with
  | S754_finite s m e => binary_round 24 128 s m e
  | _ => x
  end.

(** A binary32 value as a binary64 one, the conversion [(double) x]: exact,
    the mantissa and the exponent are brought to the binary64 form. *)
Definition ofSingle (x : spec_float) : double :=
  match x with
  | S754_finite s m e => binary_round prec emax s m e
  | _ => x
  end.

End FP.

Abbreviation double := FP.double.

(** ** Declarations of the Brook platform headers

    [BrookOpenMMFloat] and [DefaultReturnValue] are declared in headers that
    are not part of the sources at hand, and so are the values that the
    constructors of [BrookVerletDynamics] and [BrookShakeAlgorithm] give
    their fields.  The kernel only converts to and from the type and
    overwrites the fields, so all of them are taken as parameters. *)

Class BrookHeaders : Type := {
  BrookOpenMMFloat : Type;
  (** [static_cast<BrookOpenMMFloat>( x )] for a [double] x *)
  toBrookOpenMMFloat : double -> BrookOpenMMFloat;
  (** [(double) x] for a [BrookOpenMMFloat] x *)
  toDouble : BrookOpenMMFloat -> double;
  (** the step size a freshly constructed [BrookVerletDynamics] caches *)
  unsetStepSize : BrookOpenMMFloat;
  (** the tolerance and the iteration cap of a freshly constructed
      [BrookShakeAlgorithm] *)
  unsetShakeTolerance : BrookOpenMMFloat;
  unsetMaxIterations : Z;
  (** the constant that [setLog] returns *)
  DefaultReturnValue : Z
}.

(** The Brook platform computes in single precision. *)
Definition brookSinglePrecision : BrookHeaders := {|
  BrookOpenMMFloat := spec_float;
  toBrookOpenMMFloat := FP.roundToSingle;
  toDouble := FP.ofSingle;
  unsetStepSize := FP.zero;
  unsetShakeTolerance := FP.zero;
  unsetMaxIterations := 0;
  DefaultReturnValue := 0
|}.

(** ** Plain data *)

(** A [FILE*] is a handle; [NULL] is [None] of [option FILE]. *)
Definition FILE : Type := nat.

Definition Vec3 : Type := (double * double * double)%type.

Definition vadd (u v : Vec3) : Vec3 :=
  let '(ux, uy, uz) := u in let '(vx, vy, vz) := v in
  (FP.add ux vx, FP.add uy vy, FP.add uz vz).

Definition vsub (u v : Vec3) : Vec3 :=
  let '(ux, uy, uz) := u in let '(vx, vy, vz) := v in
  (FP.sub ux vx, FP.sub uy vy, FP.sub uz vz).

Definition vscale (a : double) (v : Vec3) : Vec3 :=
  let '(vx, vy, vz) := v in (FP.mul a vx, FP.mul a vy, FP.mul a vz).

Definition vdiv (v : Vec3) (a : double) : Vec3 :=
  let '(vx, vy, vz) := v in (FP.div vx a, FP.div vy a, FP.div vz a).

Definition vdot (u v : Vec3) : double :=
  let '(ux, uy, uz) := u in let '(vx, vy, vz) := v in
  FP.add (FP.add (FP.mul ux vx) (FP.mul uy vy)) (FP.mul uz vz).

Definition vzero : Vec3 := (FP.zero, FP.zero, FP.zero).

(** Exceptions, and the fault of dereferencing a null pointer. *)
Inductive Exception : Type :=
| ConfigurationError (what : string)
| NullPointerDereference.

(** ** The system and the integrator (OpenMM core) *)

Module System.

(** Modelled from the spec: a constraint triple of the topology
    (section 6): particleA, particleB and the distance. *)
Record ConstraintInfo : Type := {
  particle1 : Z;
  particle2 : Z;
  distance : double
}.

(** Modelled from the spec: the [System] class is not among the sources.
    Section 6 gives what the kernel reads from it: the masses, a sequence
    of doubles of length numParticles, and the constraints, a sequence of
    (particleA, particleB, distance).  The two counts are the sizes of
    these sequences, and the kernel uses them as loop bounds only, so they
    and the loop counters are natural numbers; the particle indices of a
    constraint are [int]s that nothing bounds. *)
Record t : Type := {
  masses : list double;
  constraints : list ConstraintInfo
}.

(** Modelled from the spec: the accessors of [System] are not among the
    sources; they read the two sequences of section 6.  The kernel calls
    them with indices below the counts only. *)
Definition getNumParticles (s : t) : nat := length (masses s).

(** Modelled from the spec: see [getNumParticles]. *)
Definition getParticleMass (s : t) (ii : nat) : double :=
  nth ii (masses s) FP.zero.

(** Modelled from the spec: see [getNumParticles]. *)
Definition getNumConstraints (s : t) : nat := length (constraints s).

(** Modelled from the spec: see [getNumParticles].  The three
    out-parameters of
    [getConstraintParameters( ii, particle1, particle2, distance )] are
    returned as a triple. *)
Definition getConstraintParameters (s : t) (ii : nat) : Z * Z * double :=
  let c := nth ii (constraints s)
               {| particle1 := 0; particle2 := 0; distance := FP.zero |} in
  (particle1 c, particle2 c, distance c).

End System.

Module VerletIntegrator.

(** Modelled from the spec: the [VerletIntegrator] class is not among the
    sources.  The kernel reads the configured step size and the configured
    constraint tolerance (section 6). *)
Record t : Type := {
  stepSize : double;
  constraintTolerance : double
}.

(** Modelled from the spec: the configured step size (section 6). *)
Definition getStepSize (i : t) : double := stepSize i.

(** Modelled from the spec: the configured constraint tolerance
    (section 6). *)
Definition getConstraintTolerance (i : t) : double := constraintTolerance i.

End VerletIntegrator.

Module BrookPlatform.

(** Modelled from the spec: the [BrookPlatform] class is not among the
    sources; the kernel reads its optional log sink (section 9). *)
Record t : Type := { log : option FILE }.

(** Modelled from the spec: the log sink of the platform, [NULL] when there
    is none. *)
Definition getLog (p : t) : option FILE := log p.

End BrookPlatform.

(** ** Calls and the monad of method bodies *)

(** What the kernel and its collaborators do that a caller cannot read off
    the final state: which collaborator methods ran, in which order and on
    which arguments. *)
Inductive Event : Type :=
| VerletSetupCalled (masses : list double)
| ShakeSetupCalled (masses : list double)
    (constraintIndices : list (list Z)) (constraintLengths : list double)
| UpdateParametersCalled (stepSize : double)
| UpdateCalled
| VerletAdvance (positions velocities forces : list Vec3) (stepSize : double)
| ShakeProject (oldPositions candidatePositions : list Vec3) (converged : bool).

(** The outcome of running a method body on a state of type [S]: the value
    returned or the exception thrown, the state left behind (an exception
    does not undo the assignments made before it), and the calls made. *)
Record Outcome (S A : Type) : Type := {
  result : Exception + A;
  state : S;
  calls : list Event
}.
Arguments result {S A} _.
Arguments state {S A} _.
Arguments calls {S A} _.

Definition M (S A : Type) : Type := S -> Outcome S A.

Definition ret {S A} (a : A) : M S A :=
  fun s => {| result := inr a; state := s; calls := [] |}.

Definition bind {S A B} (m : M S A) (k : A -> M S B) : M S B :=
  fun s =>
    match m s with
    | {| result := inl e; state := s'; calls := c |} =>
        {| result := inl e; state := s'; calls := c |}
    | {| result := inr a; state := s'; calls := c |} =>
        match k a s' with
        | {| result := r; state := s''; calls := c' |} =>
            {| result := r; state := s''; calls := c ++ c' |}
        end
    end.

Definition throw {S A} (e : Exception) : M S A :=
  fun s => {| result := inl e; state := s; calls := [] |}.

Definition emit {S} (ev : Event) : M S unit :=
  fun s => {| result := inr tt; state := s; calls := [ev] |}.

Definition gets {S A} (f : S -> A) : M S A :=
  fun s => {| result := inr (f s); state := s; calls := [] |}.

Definition modify {S} (f : S -> S) : M S unit :=
  fun s => {| result := inr tt; state := f s; calls := [] |}.

(** [p->method( ... )] for a pointer field [p] of the state: a fault when
    [p] is [NULL], otherwise the method runs on the pointee. *)
Definition through {S T A} (get : S -> option T) (set : option T -> S -> S)
    (m : M T A) : M S A :=
  fun s =>
    match get s with
    | None => {| result := inl NullPointerDereference; state := s; calls := [] |}
    | Some t =>
        match m t with
        | {| result := r; state := t'; calls := c |} =>
            {| result := r; state := set (Some t') s; calls := c |}
        end
    end.

(** [*p] for a pointer field [p]. *)
Definition deref {S T} (get : S -> option T) : M S T :=
  fun s =>
    match get s with
    | None => {| result := inl NullPointerDereference; state := s; calls := [] |}
    | Some t => {| result := inr t; state := s; calls := [] |}
    end.

Definition completes {S A} (o : Outcome S A) : Prop :=
  exists a, result o = inr a.

Declare Scope method_scope.
Delimit Scope method_scope with method.
Notation "x <- m ;; k" := (bind m (fun x => k))
  (at level 100, m at next level, right associativity) : method_scope.
Notation "m ;; k" := (bind m (fun _ => k))
  (at level 100, right associativity) : method_scope.

Local Open Scope method_scope.

(** ** BrookVerletDynamics and BrookShakeAlgorithm (Brook platform) *)

Module BrookShakeAlgorithm.

(** Modelled from the spec: a constraint of the ConstraintSet (section 3),
    a pair of particles and their target distance. *)
Record Constraint : Type := {
  particleA : nat;
  particleB : nat;
  targetDistance : double
}.

Section WithHeaders.
Context `{BH : BrookHeaders}.

(** Modelled from the spec: the [BrookShakeAlgorithm] class is not among the
    sources.  It holds the MassTable and the ConstraintSet built at setup
    (section 4.1), the tolerance and the iteration cap of the solver
    (section 4.3) and the optional log sink (section 9). *)
Record t : Type := {
  log : option FILE;
  masses : list double;
  constraints : list Constraint;
  shakeTolerance : BrookOpenMMFloat;
  maxIterations : Z
}.

(** Modelled from the spec: the [BrookShakeAlgorithm] constructor is not
    among the sources; an object that has not been set up holds empty
    tables. *)
Definition new : t :=
  {| log := None; masses := []; constraints := [];
     shakeTolerance := unsetShakeTolerance;
     maxIterations := unsetMaxIterations |}.

(** Modelled from the spec: the setters of [BrookShakeAlgorithm] are not
    among the sources; each installs its argument (sections 4.3 and 9). *)
Definition setLog (f : option FILE) : M t unit :=
  modify (fun sa =>
    {| log := f; masses := masses sa; constraints := constraints sa;
       shakeTolerance := shakeTolerance sa;
       maxIterations := maxIterations sa |}).

(** Modelled from the spec: see [setLog]. *)
Definition setShakeTolerance (tolerance : BrookOpenMMFloat) : M t unit :=
  modify (fun sa =>
    {| log := log sa; masses := masses sa; constraints := constraints sa;
       shakeTolerance := tolerance; maxIterations := maxIterations sa |}).

(** Modelled from the spec: see [setLog]. *)
Definition setMaxIterations (n : Z) : M t unit :=
  modify (fun sa =>
    {| log := log sa; masses := masses sa; constraints := constraints sa;
       shakeTolerance := shakeTolerance sa; maxIterations := n |}).

(** Modelled from the spec: the validation that [BrookShakeAlgorithm::setup]
    performs is not among the sources.  Sections 4.1, 6 and 7: a constraint
    is malformed when it references an out-of-range particle index, is a
    self-pair, or has a distance <= 0. *)
Definition checkConstraint (numberOfParticles : nat)
    (indices : list Z) (distance : double) : Exception + Constraint :=
  match indices with
  | [a; b] =>
      if negb ((0 <=? a) && (a <? Z.of_nat numberOfParticles)
               && (0 <=? b) && (b <? Z.of_nat numberOfParticles))
      then inl (ConfigurationError "constraint particle index out of range")
      else if a =? b
      then inl (ConfigurationError "constraint of a particle with itself")
      else if FP.leb distance FP.zero
      then inl (ConfigurationError "constraint distance is not positive")
      else inr {| particleA := Z.to_nat a; particleB := Z.to_nat b;
                  targetDistance := distance |}
  | _ => inl (ConfigurationError "constraint does not name two particles")
  end.

(** Modelled from the spec: the validation of all constraints, in order;
    index vectors and lengths that do not pair up are mismatched array
    lengths (section 7). *)
Fixpoint checkConstraints (numberOfParticles : nat)
    (constraintIndices : list (list Z)) (constraintLengths : list double)
    : Exception + list Constraint :=
  match constraintIndices, constraintLengths with
  | [], [] => inr []
  | indices :: constraintIndices', distance :: constraintLengths' =>
      match checkConstraint numberOfParticles indices distance with
      | inl e => inl e
      | inr c =>
          match checkConstraints numberOfParticles
                  constraintIndices' constraintLengths' with
          | inl e => inl e
          | inr cs => inr (c :: cs)
          end
      end
  | _, _ => inl (ConfigurationError "mismatched array lengths")
  end.

(** Modelled from the spec: [BrookShakeAlgorithm::setup] is not among the
    sources.  Section 4.1: the tables are populated from the masses and the
    constraint triples, and a malformed constraint is a configuration error
    reported at setup; section 7: the error aborts. *)
Definition setup (masses' : list double)
    (constraintIndices : list (list Z)) (constraintLengths : list double)
    : M t unit :=
  emit (ShakeSetupCalled masses' constraintIndices constraintLengths) ;;
  match checkConstraints (length masses') constraintIndices constraintLengths with
  | inl e => throw e
  | inr cs =>
      modify (fun sa =>
        {| log := log sa; masses := masses'; constraints := cs;
           shakeTolerance := shakeTolerance sa;
           maxIterations := maxIterations sa |})
  end.

(** Modelled from the spec: the inverse mass of section 4.1, 1/mass if
    mass > 0, else 0. *)
Definition inverseMass (mass : double) : double :=
  if FP.gtb mass FP.zero then FP.div FP.one mass else FP.zero.

(** Modelled from the spec: the convergence test of section 4.3, step 2.
    The violation of a constraint is |r|^2 - d^2 for
    r = positions[b] - positions[a]; the solver has converged when
    |violation| / d^2 <= tolerance for all constraints. *)
Definition violation (positions : list Vec3) (c : Constraint) : double :=
  let r := vsub (nth (particleB c) positions vzero)
                (nth (particleA c) positions vzero) in
  FP.sub (vdot r r) (FP.mul (targetDistance c) (targetDistance c)).

(** Modelled from the spec: |violation| / d^2 <= tolerance, for one
    constraint (section 4.3, step 2). *)
Definition satisfied (tolerance : double) (positions : list Vec3)
    (c : Constraint) : bool :=
  FP.leb (FP.div (FP.fabs (violation positions c))
                 (FP.mul (targetDistance c) (targetDistance c)))
         tolerance.

(** Modelled from the spec: all constraints are satisfied (section 4.3,
    step 2). *)
Definition converged (tolerance : double) (cs : list Constraint)
    (positions : list Vec3) : bool :=
  forallb (satisfied tolerance positions) cs.

(** Modelled from the spec: the correction of section 4.3, step 3, in the
    standard SHAKE form that section 9 prescribes.  A pair whose combined
    inverse mass is zero is skipped; otherwise the two particles move in
    opposite directions along the pre-step vector r_old, each in proportion
    to its own inverse mass. *)
Definition correct (invMass : list double) (oldPositions : list Vec3)
    (positions : list Vec3) (c : Constraint) : list Vec3 :=
  let a := particleA c in
  let b := particleB c in
  let wa := nth a invMass FP.zero in
  let wb := nth b invMass FP.zero in
  if FP.eqb (FP.add wa wb) FP.zero then positions
  else
    let r := vsub (nth b positions vzero) (nth a positions vzero) in
    let rOld := vsub (nth b oldPositions vzero) (nth a oldPositions vzero) in
    let g := FP.div (violation positions c)
               (FP.mul (FP.mul (FP.ofZ 2) (FP.add wa wb)) (vdot r rOld)) in
    let positions' :=
      <[a := vadd (nth a positions vzero) (vscale (FP.mul g wa) rOld)]>
        positions in
    <[b := vsub (nth b positions' vzero) (vscale (FP.mul g wb) rOld)]>
      positions'.

(** Modelled from the spec: one pass over the constraints; every
    correction sees the positions the previous ones left (section 4.3,
    coupled constraints). *)
Definition pass (invMass : list double) (cs : list Constraint)
    (oldPositions positions : list Vec3) : list Vec3 :=
  fold_left (correct invMass oldPositions) cs positions.

(** Modelled from the spec: section 4.3, step 4.  Passes repeat until all
    constraints are satisfied at the start of a pass or [passes] passes are
    used up; the flag returned is the convergence status. *)
Fixpoint relax (passes : nat) (tolerance : double) (invMass : list double)
    (cs : list Constraint) (oldPositions positions : list Vec3)
    : list Vec3 * bool :=
  match passes with
  | O => (positions, false)
  | S passes' =>
      if converged tolerance cs positions then (positions, true)
      else relax passes' tolerance invMass cs oldPositions
             (pass invMass cs oldPositions positions)
  end.

(** Modelled from the spec: [project] of section 4.3, on the tables, the
    tolerance and the iteration cap that the object holds. *)
Definition project (sa : t) (oldPositions newPositions : list Vec3)
    : list Vec3 * bool :=
  relax (Z.to_nat (maxIterations sa)) (toDouble (shakeTolerance sa))
        (map inverseMass (masses sa)) (constraints sa)
        oldPositions newPositions.

End WithHeaders.

End BrookShakeAlgorithm.

Module BrookVerletDynamics.

Section WithHeaders.
Context `{BH : BrookHeaders}.

(** Modelled from the spec: the [BrookVerletDynamics] class is not among the
    sources.  It holds the MassTable (section 3), the cached step size that
    [getStepSize] returns and [updateParameters] refreshes (sections 3 and
    4.2) and the optional log sink (section 9). *)
Record t : Type := {
  log : option FILE;
  masses : list double;
  stepSize : BrookOpenMMFloat
}.

(** Modelled from the spec: the [BrookVerletDynamics] constructor is not
    among the sources; an object that has not been set up holds an empty
    table. *)
Definition new : t :=
  {| log := None; masses := []; stepSize := unsetStepSize |}.

(** Modelled from the spec: [BrookVerletDynamics::setLog] is not among the
    sources; it installs the sink (section 9). *)
Definition setLog (f : option FILE) : M t unit :=
  modify (fun vd =>
    {| log := f; masses := masses vd; stepSize := stepSize vd |}).

(** Modelled from the spec: [BrookVerletDynamics::setup] is not among the
    sources; section 4.1: it populates the MassTable and nothing else. *)
Definition setup (masses' : list double) : M t unit :=
  emit (VerletSetupCalled masses') ;;
  modify (fun vd =>
    {| log := log vd; masses := masses'; stepSize := stepSize vd |}).

(** Modelled from the spec: [BrookVerletDynamics::getStepSize] is not among
    the sources; it returns the cached step size (sections 3 and 4.2). *)
Definition getStepSize : M t BrookOpenMMFloat := gets stepSize.

(** Modelled from the spec: [BrookVerletDynamics::updateParameters] is not
    among the sources; sections 3 and 4.2: it refreshes the cached
    step-size state from the configured step size. *)
Definition updateParameters (stepSize' : double) : M t unit :=
  emit (UpdateParametersCalled stepSize') ;;
  modify (fun vd =>
    {| log := log vd; masses := masses vd;
       stepSize := toBrookOpenMMFloat stepSize' |}).

(** Modelled from the spec: the Verlet update of section 4.2 for one
    particle; a particle of zero inverse mass keeps its velocity and its
    position. *)
Definition advanceParticle (h invM : double) (x v f : Vec3) : Vec3 * Vec3 :=
  if FP.eqb invM FP.zero then (x, v)
  else
    let v' := vadd v (vscale (FP.mul h invM) f) in
    (vadd x (vscale h v'), v').

(** Modelled from the spec: the Verlet update of section 4.2, particle by
    particle. *)
Fixpoint advance (h : double) (invMass : list double)
    (positions velocities forces : list Vec3) : list Vec3 * list Vec3 :=
  match invMass, positions, velocities, forces with
  | invM :: invMass', x :: positions', v :: velocities', f :: forces' =>
      let '(x', v') := advanceParticle h invM x v f in
      let '(xs, vs) := advance h invMass' positions' velocities' forces' in
      (x' :: xs, v' :: vs)
  | _, _, _, _ => ([], [])
  end.

(** Modelled from the spec: section 4.4, step (d):
    velocity[i] += (corrected[i] - uncorrected[i]) / stepSize. *)
Fixpoint correctVelocities (h : double)
    (velocities corrected uncorrected : list Vec3) : list Vec3 :=
  match velocities, corrected, uncorrected with
  | v :: velocities', xc :: corrected', xu :: uncorrected' =>
      vadd v (vdiv (vsub xc xu) h)
      :: correctVelocities h velocities' corrected' uncorrected'
  | _, _, _ => []
  end.

(** Modelled from the spec: [BrookVerletDynamics::update] is not among the
    sources.  Section 4.4, steps (b) to (d): the Verlet advance from the
    current positions, velocities and forces with the cached step size, the
    SHAKE projection of the candidate positions against the pre-step
    positions, and the velocity correction; section 7: arrays whose lengths
    differ from the number of particles are a configuration error.  The
    streams are passed by reference; their new contents are returned,
    together with the convergence status of the projection. *)
Definition update (positions velocities forces : list Vec3)
    (shake : BrookShakeAlgorithm.t)
    : M t (list Vec3 * list Vec3 * bool) :=
  emit UpdateCalled ;;
  vd <- gets (fun vd => vd) ;;
  let n := length (masses vd) in
  if negb ((length positions =? n)%nat && (length velocities =? n)%nat
           && (length forces =? n)%nat)
  then throw (ConfigurationError "mismatched array lengths")
  else
    let h := toDouble (stepSize vd) in
    emit (VerletAdvance positions velocities forces h) ;;
    let '(candidate, velocities') :=
      advance h (map BrookShakeAlgorithm.inverseMass (masses vd))
              positions velocities forces in
    let '(corrected, status) :=
      BrookShakeAlgorithm.project shake positions candidate in
    emit (ShakeProject positions candidate status) ;;
    ret (corrected, correctVelocities h velocities' corrected candidate,
         status).

End WithHeaders.

End BrookVerletDynamics.

Module OpenMMBrookInterface.

(** Modelled from the spec: the [OpenMMBrookInterface] class is not among
    the sources; the kernel borrows from it the position, velocity and force
    arrays of the compute substrate (sections 3 and 6). *)
Record t : Type := {
  particlePositions : list Vec3;
  particleVelocities : list Vec3;
  particleForces : list Vec3
}.

(** Modelled from the spec: the accessors of [OpenMMBrookInterface] are not
    among the sources; each gives the array it names. *)
Definition getParticlePositions (i : t) : list Vec3 := particlePositions i.

(** Modelled from the spec: see [getParticlePositions]. *)
Definition getParticleVelocities (i : t) : list Vec3 := particleVelocities i.

(** Modelled from the spec: see [getParticlePositions]. *)
Definition getParticleForces (i : t) : list Vec3 := particleForces i.

End OpenMMBrookInterface.

(** ** The kernel *)

Module BrookIntegrateVerletStepKernel.

Section WithHeaders.
Context `{BH : BrookHeaders}.

(** The members of the kernel object.  [_openMMBrookInterface] is a
    reference; the record holds the object referred to.  [written] is not a
    member: it is the text printed to [FILE]s so far, latest first. *)
Record t : Type := {
  _log : option FILE;
  _brookVerletDynamics : option BrookVerletDynamics.t;
  _brookShakeAlgorithm : option BrookShakeAlgorithm.t;
  _openMMBrookInterface : OpenMMBrookInterface.t;
  written : list (FILE * string)
}.

Definition set_log (f : option FILE) (k : t) : t :=
  {| _log := f;
     _brookVerletDynamics := _brookVerletDynamics k;
     _brookShakeAlgorithm := _brookShakeAlgorithm k;
     _openMMBrookInterface := _openMMBrookInterface k;
     written := written k |}.

Definition set_brookVerletDynamics (p : option BrookVerletDynamics.t)
    (k : t) : t :=
  {| _log := _log k;
     _brookVerletDynamics := p;
     _brookShakeAlgorithm := _brookShakeAlgorithm k;
     _openMMBrookInterface := _openMMBrookInterface k;
     written := written k |}.

Definition set_brookShakeAlgorithm (p : option BrookShakeAlgorithm.t)
    (k : t) : t :=
  {| _log := _log k;
     _brookVerletDynamics := _brookVerletDynamics k;
     _brookShakeAlgorithm := p;
     _openMMBrookInterface := _openMMBrookInterface k;
     written := written k |}.

(** The streams that [update] receives by reference and writes. *)
Definition set_streams (positions velocities : list Vec3) (k : t) : t :=
  {| _log := _log k;
     _brookVerletDynamics := _brookVerletDynamics k;
     _brookShakeAlgorithm := _brookShakeAlgorithm k;
     _openMMBrookInterface :=
       {| OpenMMBrookInterface.particlePositions := positions;
          OpenMMBrookInterface.particleVelocities := velocities;
          OpenMMBrookInterface.particleForces :=
            OpenMMBrookInterface.particleForces (_openMMBrookInterface k) |};
     written := written k |}.

Definition fprintf (f : FILE) (text : string) : M t unit :=
  modify (fun k =>
    {| _log := _log k;
       _brookVerletDynamics := _brookVerletDynamics k;
       _brookShakeAlgorithm := _brookShakeAlgorithm k;
       _openMMBrookInterface := _openMMBrookInterface k;
       written := (f, text) :: written k |}).

Definition fflush (f : FILE) : M t unit := ret tt.

(** [%d] of a count. *)
Definition decimalOf (n : nat) : string :=
  DecimalString.NilZero.string_of_uint (Nat.to_uint n).

Definition newline : string := String (ascii_of_nat 10) EmptyString.

Definition getLog : M t (option FILE) := gets _log.

Definition setLog (log : option FILE) : M t Z :=
  modify (set_log log) ;;
  ret DefaultReturnValue.

(** The constructor: both pointers start [NULL], and the log is the
    platform's, if it has one. *)
Definition constructor (platform : BrookPlatform.t)
    (openMMBrookInterface : OpenMMBrookInterface.t) : t :=
  let this :=
    {| _log := None;
       _brookVerletDynamics := None;
       _brookShakeAlgorithm := None;
       _openMMBrookInterface := openMMBrookInterface;
       written := [] |} in
  match BrookPlatform.getLog platform with
  | Some f => state (setLog (BrookPlatform.getLog platform) this)
  | None => set_log None this
  end.

(** The loop over the particles: [masses.resize( numberOfParticles )], then
    [masses[ii] = static_cast<double>( system.getParticleMass( ii ) )]. *)
Definition collectMasses (system : System.t) : list double :=
  let numberOfParticles := System.getNumParticles system in
  fold_left
    (fun masses ii => <[ii := System.getParticleMass system ii]> masses)
    (seq 0 numberOfParticles)
    (replicate numberOfParticles FP.zero).

(** The loop over the constraints: [constraintIndicesVector] is resized to
    the number of constraints, [constraintLengths] starts empty, and each
    turn pushes the two particles on entry [ii] and the distance on the
    lengths. *)
Definition collectConstraints (system : System.t)
    : list (list Z) * list double :=
  let numberOfConstraints := System.getNumConstraints system in
  fold_left
    (fun '(constraintIndicesVector, constraintLengths) ii =>
       let '(particle1, particle2, distance) :=
         System.getConstraintParameters system ii in
       let constraintIndicesVector :=
         alter (fun v => v ++ [particle1]) ii constraintIndicesVector in
       let constraintIndicesVector :=
         alter (fun v => v ++ [particle2]) ii constraintIndicesVector in
       (constraintIndicesVector, constraintLengths ++ [distance]))
    (seq 0 numberOfConstraints)
    (replicate numberOfConstraints [], []).

(** The entry of [constraintIndicesVector] that a constraint ends up as. *)
Definition indicesOf (c : System.ConstraintInfo) : list Z :=
  [System.particle1 c; System.particle2 c].

Definition onVerletDynamics {A} (m : M BrookVerletDynamics.t A) : M t A :=
  through _brookVerletDynamics set_brookVerletDynamics m.

Definition onShakeAlgorithm {A} (m : M BrookShakeAlgorithm.t A) : M t A :=
  through _brookShakeAlgorithm set_brookShakeAlgorithm m.

Definition initialize (system : System.t) (integrator : VerletIntegrator.t)
    : M t unit :=
  let printOn := 0 in
  let methodName := "BrookIntegrateVerletStepKernel::initialize"%string in
  log <- getLog ;;
  let numberOfParticles := System.getNumParticles system in
  let masses := collectMasses system in
  let numberOfConstraints := System.getNumConstraints system in
  let '(constraintIndicesVector, constraintLengths) :=
    collectConstraints system in
  modify (set_brookVerletDynamics (Some BrookVerletDynamics.new)) ;;
  onVerletDynamics (BrookVerletDynamics.setup masses) ;;
  onVerletDynamics (BrookVerletDynamics.setLog log) ;;
  modify (set_brookShakeAlgorithm (Some BrookShakeAlgorithm.new)) ;;
  onShakeAlgorithm (BrookShakeAlgorithm.setLog log) ;;
  onShakeAlgorithm
    (BrookShakeAlgorithm.setup masses constraintIndicesVector
       constraintLengths) ;;
  let tolerance :=
    toBrookOpenMMFloat (VerletIntegrator.getConstraintTolerance integrator) in
  onShakeAlgorithm (BrookShakeAlgorithm.setShakeTolerance tolerance) ;;
  onShakeAlgorithm (BrookShakeAlgorithm.setMaxIterations 40) ;;
  match log with
  | Some f =>
      if negb (printOn =? 0) then
        fprintf f
          (methodName ++ " done w/ setup: particles="
           ++ decimalOf numberOfParticles ++ " const="
           ++ decimalOf numberOfConstraints ++ newline) ;;
        fflush f
      else ret tt
  | None => ret tt
  end.

Definition execute (integrator : VerletIntegrator.t) : M t unit :=
  let epsilon := FP.decimal 1 (-4) in
  let stepSize := VerletIntegrator.getStepSize integrator in
  cached <- onVerletDynamics BrookVerletDynamics.getStepSize ;;
  let difference := FP.sub stepSize (toDouble cached) in
  (if FP.gtb (FP.fabs difference) epsilon
   then onVerletDynamics (BrookVerletDynamics.updateParameters stepSize)
   else ret tt) ;;
  positions <- gets (fun k =>
    OpenMMBrookInterface.getParticlePositions (_openMMBrookInterface k)) ;;
  velocities <- gets (fun k =>
    OpenMMBrookInterface.getParticleVelocities (_openMMBrookInterface k)) ;;
  forces <- gets (fun k =>
    OpenMMBrookInterface.getParticleForces (_openMMBrookInterface k)) ;;
  shake <- deref _brookShakeAlgorithm ;;
  updated <- onVerletDynamics
    (BrookVerletDynamics.update positions velocities forces shake) ;;
  let '(positions', velocities', _) := updated in
  modify (set_streams positions' velocities').

End WithHeaders.

End BrookIntegrateVerletStepKernel.

(** ** Callers and scenarios *)

Module Caller.

Section WithHeaders.
Context `{BH : BrookHeaders}.

Import BrookIntegrateVerletStepKernel.


(** The constraint of the ConstraintSet [c] is the constraint [ci] of the
    system: same pair, same distance. *)
Definition storedAs (c : BrookShakeAlgorithm.Constraint)
    (ci : System.ConstraintInfo) : Prop :=
  Z.of_nat (BrookShakeAlgorithm.particleA c) = System.particle1 ci
  /\ Z.of_nat (BrookShakeAlgorithm.particleB c) = System.particle2 ci
  /\ BrookShakeAlgorithm.targetDistance c = System.distance ci.

(** A caller that takes one step after the other, each with the integrator
    as it is configured at that time. *)
Fixpoint executeAll (integrators : list VerletIntegrator.t) : M t unit :=
  match integrators with
  | [] => ret tt
  | integrator :: integrators' =>
      execute integrator ;; executeAll integrators'
  end.

(** A caller that sets the kernel up and then steps. *)
Definition simulate (system : System.t) (integrator : VerletIntegrator.t)
    (integrators : list VerletIntegrator.t) : M t unit :=
  initialize system integrator ;; executeAll integrators.

(** What a caller has in hand when a method of the kernel returns: the value
    or the exception, the streams of the interface it passed in, and what
    was printed.  The collaborators behind [_brookVerletDynamics] and
    [_brookShakeAlgorithm] are private members. *)
Definition observation {A} (o : Outcome t A)
    : (Exception + A) * OpenMMBrookInterface.t * list (FILE * string) :=
  (result o, _openMMBrookInterface (state o), written (state o)).

(** A way to read the convergence status of each step off what [execute]
    hands back. *)
Definition reportsConvergence
    (report : (Exception + unit) * OpenMMBrookInterface.t
              * list (FILE * string) -> bool) : Prop :=
  forall (integrator : VerletIntegrator.t) (k : t)
         (oldPositions candidatePositions : list Vec3) (status : bool),
    In (ShakeProject oldPositions candidatePositions status)
       (calls (execute integrator k)) ->
    report (observation (execute integrator k)) = status.

(** The kernel with every log sink detached: its own and those that
    [initialize] passed on to the collaborators. *)
Definition eraseLog (k : t) : t :=
  {| _log := None;
     _brookVerletDynamics :=
       (fun vd =>
          {| BrookVerletDynamics.log := None;
             BrookVerletDynamics.masses := BrookVerletDynamics.masses vd;
             BrookVerletDynamics.stepSize := BrookVerletDynamics.stepSize vd |})
       <$> _brookVerletDynamics k;
     _brookShakeAlgorithm :=
       (fun sa =>
          {| BrookShakeAlgorithm.log := None;
             BrookShakeAlgorithm.masses := BrookShakeAlgorithm.masses sa;
             BrookShakeAlgorithm.constraints :=
               BrookShakeAlgorithm.constraints sa;
             BrookShakeAlgorithm.shakeTolerance :=
               BrookShakeAlgorithm.shakeTolerance sa;
             BrookShakeAlgorithm.maxIterations :=
               BrookShakeAlgorithm.maxIterations sa |})
       <$> _brookShakeAlgorithm k;
     _openMMBrookInterface := _openMMBrookInterface k;
     written := written k |}.

(** Two outcomes that differ in the log sinks at most. *)
Definition alike {A} (o1 o2 : Outcome t A) : Prop :=
  result o1 = result o2
  /\ calls o1 = calls o2
  /\ eraseLog (state o1) = eraseLog (state o2).

End WithHeaders.

End Caller.

Module Scenario.

Import BrookIntegrateVerletStepKernel.

#[local] Existing Instance brookSinglePrecision.

Definition origin : Vec3 := vzero.
Definition unitX : Vec3 := (FP.one, FP.zero, FP.zero).

(** Two particles at (0,0,0) and (1,0,0), at rest, without forces. *)
Definition streams : OpenMMBrookInterface.t :=
  {| OpenMMBrookInterface.particlePositions := [origin; unitX];
     OpenMMBrookInterface.particleVelocities := [vzero; vzero];
     OpenMMBrookInterface.particleForces := [vzero; vzero] |}.

Definition silent : BrookPlatform.t := {| BrookPlatform.log := None |}.
Definition logging : BrookPlatform.t := {| BrookPlatform.log := Some 3%nat |}.

(** Masses 1.0 and 1.0, one constraint of distance 1.0. *)
Definition rigidPair : System.t :=
  {| System.masses := [FP.one; FP.one];
     System.constraints :=
       [{| System.particle1 := 0; System.particle2 := 1;
           System.distance := FP.one |}] |}.

(** Step size 0.001, constraint tolerance 1.0e-05. *)
Definition integrator : VerletIntegrator.t :=
  {| VerletIntegrator.stepSize := FP.decimal 1 (-3);
     VerletIntegrator.constraintTolerance := FP.decimal 1 (-5) |}.

Definition ready : t :=
  state (initialize rigidPair integrator (constructor silent streams)).

Definition readyDynamics : BrookVerletDynamics.t :=
  {| BrookVerletDynamics.log := None;
     BrookVerletDynamics.masses := [FP.one; FP.one];
     BrookVerletDynamics.stepSize := FP.zero |}.

(** The dynamics object of [ready] with 1.0e-05 as its cached step size,
    and an integrator configured with 9.0e-05. *)
Definition slowDynamics : BrookVerletDynamics.t :=
  {| BrookVerletDynamics.log := None;
     BrookVerletDynamics.masses := [FP.one; FP.one];
     BrookVerletDynamics.stepSize := FP.roundToSingle (FP.decimal 1 (-5)) |}.

Definition slow : t := set_brookVerletDynamics (Some slowDynamics) ready.

Definition faster : VerletIntegrator.t :=
  {| VerletIntegrator.stepSize := FP.decimal 9 (-5);
     VerletIntegrator.constraintTolerance := FP.decimal 1 (-5) |}.

(** Two particles of mass 0, which nothing moves, held one apart, and a
    constraint that wants them two apart. *)
Definition fixedPair : System.t :=
  {| System.masses := [FP.zero; FP.zero];
     System.constraints :=
       [{| System.particle1 := 0; System.particle2 := 1;
           System.distance := FP.ofZ 2 |}] |}.

(** The same step size as [integrator], with a constraint tolerance of 1.0:
    the relative violation of [fixedPair], |1 - 4| / 4, is within it. *)
Definition loose : VerletIntegrator.t :=
  {| VerletIntegrator.stepSize := FP.decimal 1 (-3);
     VerletIntegrator.constraintTolerance := FP.one |}.

Definition stuck : t :=
  state (initialize fixedPair integrator (constructor silent streams)).

Definition content : t :=
  state (initialize fixedPair loose (constructor silent streams)).

(** A constraint of particle 0 with itself. *)
Definition selfPair : System.t :=
  {| System.masses := [FP.one; FP.one];
     System.constraints :=
       [{| System.particle1 := 0; System.particle2 := 0;
           System.distance := FP.one |}] |}.

End Scenario.

(** ** The lifetime of the collaborators *)

From stdpp Require gmap.

Module Lifetime.

Import stdpp.gmap.

(** The free store, as far as the allocations of the kernel go: the
    addresses of the objects that are alive, and the address that the next
    [new] returns. *)
Record FreeStore : Type := {
  live : gset nat;
  next : nat
}.

Definition new (h : FreeStore) : nat * FreeStore :=
  (next h, {| live := {[next h]} ∪ live h; next := S (next h) |}).

(** [delete p]: nothing happens for [NULL], the object of a live address
    goes, and deleting anything else is undefined ([None]). *)
Definition delete (p : option nat) (h : FreeStore) : option FreeStore :=
  match p with
  | None => Some h
  | Some a =>
      if decide (a ∈ live h)
      then Some {| live := live h ∖ {[a]}; next := next h |}
      else None
  end.

(** Every live address has been handed out. *)
Definition wellFormed (h : FreeStore) : Prop :=
  forall a, a ∈ live h -> (a < next h)%nat.

Section WithHeaders.
Context `{BH : BrookHeaders}.

(** The kernel together with the addresses that its two pointers hold and
    the free store they point into; [kernel] keeps the pointees. *)
Record t : Type := {
  kernel : BrookIntegrateVerletStepKernel.t;
  dynamicsAt : option nat;
  shakeAt : option nat;
  store : FreeStore
}.

(** The constructor sets both pointers to [NULL] and allocates nothing. *)
Definition constructor (platform : BrookPlatform.t)
    (openMMBrookInterface : OpenMMBrookInterface.t) (h : FreeStore) : t :=
  {| kernel :=
       BrookIntegrateVerletStepKernel.constructor platform
         openMMBrookInterface;
     dynamicsAt := None;
     shakeAt := None;
     store := h |}.

(** [initialize] with its two [new] expressions.  Both are evaluated on
    every path: the only call that throws, the [setup] of the solver, comes
    after them.  The pointers are overwritten; what they held is not
    deleted. *)
Definition initialize (system : System.t) (integrator : VerletIntegrator.t)
    : M t unit :=
  fun w =>
    let '(dynamics, h1) := new (store w) in
    let '(shake, h2) := new h1 in
    match BrookIntegrateVerletStepKernel.initialize system integrator
            (kernel w) with
    | {| result := r; state := k; calls := c |} =>
        {| result := r;
           state := {| kernel := k; dynamicsAt := Some dynamics;
                       shakeAt := Some shake; store := h2 |};
           calls := c |}
    end.

(** A caller that sets the kernel up again and again, going on after a
    configuration error. *)
Fixpoint initializeAll (setups : list (System.t * VerletIntegrator.t))
    (w : t) : t :=
  match setups with
  | [] => w
  | (system, integrator) :: setups' =>
      initializeAll setups' (state (initialize system integrator w))
  end.

(** The destructor: [delete _brookVerletDynamics], then
    [delete _brookShakeAlgorithm].  The kernel is gone afterwards; the free
    store is what is left. *)
Definition destructor (w : t) : option FreeStore :=
  match delete (dynamicsAt w) (store w) with
  | Some h => delete (shakeAt w) h
  | None => None
  end.

End WithHeaders.

End Lifetime.

Module StepSizeTest.

Section WithHeaders.
Context `{BH : BrookHeaders}.

(** The test that [execute] makes on the configured step size of an
    integrator and the step size that a dynamics object caches. *)
Definition fires (integrator : VerletIntegrator.t)
    (dynamics : BrookVerletDynamics.t) : bool :=
  FP.gtb
    (FP.fabs (FP.sub (VerletIntegrator.getStepSize integrator)
                (toDouble (BrookVerletDynamics.stepSize dynamics))))
    (FP.decimal 1 (-4)).

End WithHeaders.

End StepSizeTest.

Module EdgeScenario.

Import stdpp.gmap.
Import BrookIntegrateVerletStepKernel.

#[local] Existing Instance brookSinglePrecision.

(** An integrator whose step size is not a number. *)
Definition undefinedStep : VerletIntegrator.t :=
  {| VerletIntegrator.stepSize := S754_nan;
     VerletIntegrator.constraintTolerance := FP.decimal 1 (-5) |}.

(** Step size 2.0e-05. *)
Definition slower : VerletIntegrator.t :=
  {| VerletIntegrator.stepSize := FP.decimal 2 (-5);
     VerletIntegrator.constraintTolerance := FP.decimal 1 (-5) |}.

(** A free store in which nothing has been allocated yet. *)
Definition emptyStore : Lifetime.FreeStore :=
  {| Lifetime.live := ∅; Lifetime.next := 0 |}.

End EdgeScenario.

(** * Properties *)

(** ** Comparisons of binary64 values *)

Module FPFacts.

Lemma SFcompare_antisym (a b : double) :
  SFcompare b a = option_map CompOpp (SFcompare a b).
Proof.
  destruct a as [sa | sa | | sa ma ea], b as [sb | sb | | sb mb eb];
    cbn [SFcompare option_map CompOpp];
    try reflexivity;
    try (destruct sa; reflexivity);
    try (destruct sb; reflexivity);
    try (destruct sa, sb; reflexivity).
  assert (Hm : Pos.compare_cont Eq mb ma = CompOpp (Pos.compare_cont Eq ma mb))
    by (rewrite Pos.compare_cont_antisym; reflexivity).
  destruct sa, sb; cbn [CompOpp]; try reflexivity;
    rewrite (Z.compare_antisym ea eb), Hm;
    destruct (ea ?= eb)%Z; cbn [CompOpp];
    try reflexivity;
    destruct (Pos.compare_cont Eq ma mb); reflexivity.
Qed.

(** [a <= b] excludes [a > b]. *)
Lemma leb_not_gtb (a b : double) : FP.leb a b = true -> FP.gtb a b = false.
Proof.
  unfold FP.leb, FP.gtb, SFleb, SFltb. rewrite (SFcompare_antisym a b).
  destruct (SFcompare a b) as [[ | | ] | ]; cbn; congruence.
Qed.

(** The literal [1.0e-04] is the binary64 value nearest to 1/10000. *)
Lemma epsilon_value :
  FP.decimal 1 (-4) = S754_finite false 7378697629483821 (-66).
Proof. vm_compute. reflexivity. Qed.

End FPFacts.

(** ** The loops of [initialize] *)

Module Loops.

Import BrookIntegrateVerletStepKernel.

Lemma fill_masses (l : list double) (k : nat) :
  (k <= length l)%nat ->
  fold_left (fun masses ii => <[ii := nth ii l FP.zero]> masses)
    (seq 0 k) (replicate (length l) FP.zero)
  = take k l ++ replicate (length l - k) FP.zero.
Proof.
  induction k as [ | k IH]; intros Hk.
  - cbn. now rewrite Nat.sub_0_r.
  - rewrite seq_S, fold_left_app, IH by lia. cbn [fold_left Nat.add].
    destruct (nth_lookup_or_length l k FP.zero) as [Hl | Hl]; [ | lia].
    rewrite insert_app_r_alt by (rewrite length_take_le; lia).
    rewrite length_take_le by lia.
    replace (length l - k)%nat with (S (length l - S k)) by lia.
    rewrite Nat.sub_diag. cbn [replicate].
    rewrite (take_S_r l k _ Hl), <- app_assoc. reflexivity.
Qed.

(** The mass loop copies the masses of the system, in order. *)
Lemma collectMasses_eq (system : System.t) :
  collectMasses system = System.masses system.
Proof.
  unfold collectMasses, System.getNumParticles, System.getParticleMass.
  rewrite fill_masses by lia.
  rewrite take_ge, Nat.sub_diag by lia. apply app_nil_r.
Qed.

Lemma fill_constraints (system : System.t) (k : nat) :
  let cs := System.constraints system in
  (k <= length cs)%nat ->
  fold_left
    (fun '(constraintIndicesVector, constraintLengths) ii =>
       let '(particle1, particle2, distance) :=
         System.getConstraintParameters system ii in
       let constraintIndicesVector :=
         alter (fun v => v ++ [particle1]) ii constraintIndicesVector in
       let constraintIndicesVector :=
         alter (fun v => v ++ [particle2]) ii constraintIndicesVector in
       (constraintIndicesVector, constraintLengths ++ [distance]))
    (seq 0 k) (replicate (length cs) [], [])
  = (map indicesOf (take k cs) ++ replicate (length cs - k) [],
     map System.distance (take k cs)).
Proof.
  intros cs. induction k as [ | k IH]; intros Hk.
  - cbn. now rewrite Nat.sub_0_r.
  - rewrite seq_S, fold_left_app, IH by lia. cbn [fold_left Nat.add].
    unfold System.getConstraintParameters. fold cs.
    set (dflt := {| System.particle1 := 0; System.particle2 := 0;
                    System.distance := FP.zero |}).
    destruct (nth_lookup_or_length cs k dflt) as [Hl | Hl]; [ | lia].
    assert (Hlen : length (map indicesOf (take k cs)) = k)
      by (rewrite length_map, length_take_le; lia).
    rewrite !alter_app_r_alt by lia. rewrite Hlen.
    replace (length cs - k)%nat with (S (length cs - S k)) by lia.
    rewrite Nat.sub_diag. cbn [replicate alter list_alter app].
    rewrite (take_S_r cs k _ Hl), !map_app, <- app_assoc. reflexivity.
Qed.

(** The constraint loop copies the particle pairs and the distances of the
    system, in order and index by index. *)
Lemma collectConstraints_eq (system : System.t) :
  collectConstraints system
  = (map indicesOf (System.constraints system),
     map System.distance (System.constraints system)).
Proof.
  unfold collectConstraints, System.getNumConstraints.
  rewrite fill_constraints by lia.
  rewrite take_ge, Nat.sub_diag by lia. cbn [replicate].
  now rewrite app_nil_r.
Qed.

End Loops.

(** ** Sequencing *)

Module MonadFacts.

Lemma bind_throws {S A B} (m : M S A) (k : A -> M S B) (s : S)
    (e : Exception) :
  result (m s) = inl e ->
  bind m k s = {| result := inl e; state := state (m s); calls := calls (m s) |}.
Proof.
  unfold bind. destruct (m s) as [[e' | a] s' c]; cbn; congruence.
Qed.

Lemma bind_returns {S A B} (m : M S A) (k : A -> M S B) (s : S) (a : A) :
  result (m s) = inr a ->
  bind m k s
  = {| result := result (k a (state (m s)));
       state := state (k a (state (m s)));
       calls := calls (m s) ++ calls (k a (state (m s))) |}.
Proof.
  unfold bind. destruct (m s) as [[e' | a'] s' c]; cbn; [congruence | ].
  intros [= ->]. destruct (k a s'); reflexivity.
Qed.

End MonadFacts.

(** ** What [initialize] and [execute] come to *)

Module KernelFacts.

Import BrookIntegrateVerletStepKernel.

Section WithHeaders.
Context `{BH : BrookHeaders}.

Ltac run_method :=
  cbv [bind ret throw emit gets modify through deref
       onVerletDynamics onShakeAlgorithm getLog fprintf fflush
       BrookVerletDynamics.setup BrookVerletDynamics.setLog
       BrookVerletDynamics.getStepSize BrookVerletDynamics.updateParameters
       BrookShakeAlgorithm.setup BrookShakeAlgorithm.setLog
       BrookShakeAlgorithm.setShakeTolerance
       BrookShakeAlgorithm.setMaxIterations
       BrookVerletDynamics.new BrookShakeAlgorithm.new
       set_log set_brookVerletDynamics set_brookShakeAlgorithm set_streams];
  cbn [result state calls app
       _log _brookVerletDynamics _brookShakeAlgorithm _openMMBrookInterface
       written
       BrookVerletDynamics.log BrookVerletDynamics.masses
       BrookVerletDynamics.stepSize
       BrookShakeAlgorithm.log BrookShakeAlgorithm.masses
       BrookShakeAlgorithm.constraints BrookShakeAlgorithm.shakeTolerance
       BrookShakeAlgorithm.maxIterations].

(** [initialize] replaces both collaborators by fresh ones; nothing of the
    previous ones survives, and the streams and the files are left alone. *)
Lemma initialize_outcome (system : System.t) (integrator : VerletIntegrator.t)
    (k : t) :
  let masses := System.masses system in
  let indices := map indicesOf (System.constraints system) in
  let lengths := map System.distance (System.constraints system) in
  let dynamics :=
    {| BrookVerletDynamics.log := _log k;
       BrookVerletDynamics.masses := masses;
       BrookVerletDynamics.stepSize := unsetStepSize |} in
  let after (shake : BrookShakeAlgorithm.t) :=
    {| _log := _log k;
       _brookVerletDynamics := Some dynamics;
       _brookShakeAlgorithm := Some shake;
       _openMMBrookInterface := _openMMBrookInterface k;
       written := written k |} in
  initialize system integrator k =
  match BrookShakeAlgorithm.checkConstraints (length masses) indices lengths with
  | inl e =>
      {| result := inl e;
         state := after
           {| BrookShakeAlgorithm.log := _log k;
              BrookShakeAlgorithm.masses := [];
              BrookShakeAlgorithm.constraints := [];
              BrookShakeAlgorithm.shakeTolerance := unsetShakeTolerance;
              BrookShakeAlgorithm.maxIterations := unsetMaxIterations |};
         calls := [VerletSetupCalled masses;
                   ShakeSetupCalled masses indices lengths] |}
  | inr cs =>
      {| result := inr tt;
         state := after
           {| BrookShakeAlgorithm.log := _log k;
              BrookShakeAlgorithm.masses := masses;
              BrookShakeAlgorithm.constraints := cs;
              BrookShakeAlgorithm.shakeTolerance :=
                toBrookOpenMMFloat
                  (VerletIntegrator.getConstraintTolerance integrator);
              BrookShakeAlgorithm.maxIterations := 40 |};
         calls := [VerletSetupCalled masses;
                   ShakeSetupCalled masses indices lengths] |}
  end.
Proof.
  intros masses indices lengths dynamics after. subst dynamics after.
  unfold initialize.
  rewrite Loops.collectMasses_eq, Loops.collectConstraints_eq.
  fold masses indices lengths.
  destruct k as [lg vd sa iface wr]. run_method.
  destruct (BrookShakeAlgorithm.checkConstraints (length masses) indices lengths)
    as [e | cs]; run_method.
  - reflexivity.
  - destruct lg; run_method; cbn; reflexivity.
Qed.

(** [execute] on a kernel whose dynamics object exists: the cached step
    size is refreshed or not, then the shake pointer is dereferenced, then
    [update] runs and its streams are written back.  The status that
    [update] returns appears nowhere in the outcome but in the record of
    calls. *)
Lemma execute_outcome (integrator : VerletIntegrator.t) (k : t)
    (dynamics : BrookVerletDynamics.t) :
  _brookVerletDynamics k = Some dynamics ->
  let stepSize := VerletIntegrator.getStepSize integrator in
  let changed :=
    FP.gtb (FP.fabs (FP.sub stepSize
                       (toDouble (BrookVerletDynamics.stepSize dynamics))))
           (FP.decimal 1 (-4)) in
  let dynamics' :=
    if changed
    then {| BrookVerletDynamics.log := BrookVerletDynamics.log dynamics;
            BrookVerletDynamics.masses := BrookVerletDynamics.masses dynamics;
            BrookVerletDynamics.stepSize := toBrookOpenMMFloat stepSize |}
    else dynamics in
  let refresh := if changed then [UpdateParametersCalled stepSize] else [] in
  let k' := set_brookVerletDynamics (Some dynamics') k in
  let positions :=
    OpenMMBrookInterface.particlePositions (_openMMBrookInterface k) in
  let velocities :=
    OpenMMBrookInterface.particleVelocities (_openMMBrookInterface k) in
  let forces :=
    OpenMMBrookInterface.particleForces (_openMMBrookInterface k) in
  let n := length (BrookVerletDynamics.masses dynamics) in
  let h := toDouble (BrookVerletDynamics.stepSize dynamics') in
  let advanced :=
    BrookVerletDynamics.advance h
      (map BrookShakeAlgorithm.inverseMass
         (BrookVerletDynamics.masses dynamics))
      positions velocities forces in
  execute integrator k =
  match _brookShakeAlgorithm k with
  | None =>
      {| result := inl NullPointerDereference; state := k';
         calls := refresh |}
  | Some shake =>
      if (length positions =? n)%nat && (length velocities =? n)%nat
         && (length forces =? n)%nat
      then
        let projected :=
          BrookShakeAlgorithm.project shake positions (fst advanced) in
        {| result := inr tt;
           state :=
             set_streams (fst projected)
               (BrookVerletDynamics.correctVelocities h (snd advanced)
                  (fst projected) (fst advanced))
               k';
           calls :=
             refresh ++ [UpdateCalled;
                         VerletAdvance positions velocities forces h;
                         ShakeProject positions (fst advanced)
                           (snd projected)] |}
      else
        {| result := inl (ConfigurationError "mismatched array lengths");
           state := k';
           calls := refresh ++ [UpdateCalled] |}
  end.
Proof.
  intros Hvd stepSize changed dynamics' refresh k' positions velocities
    forces n h advanced.
  destruct k as [lg vd sa iface wr]. cbn in Hvd. subst vd.
  destruct dynamics as [vlog vmasses vstep].
  subst advanced h n k' refresh dynamics' changed.
  cbn [_openMMBrookInterface _brookShakeAlgorithm BrookVerletDynamics.masses
       BrookVerletDynamics.stepSize BrookVerletDynamics.log] in *.
  unfold execute. fold stepSize. run_method.
  destruct (FP.gtb _ _); run_method.
  all: destruct sa as [shake | ]; run_method; [ | reflexivity].
  all: unfold BrookVerletDynamics.update; run_method.
  all: unfold OpenMMBrookInterface.getParticlePositions,
         OpenMMBrookInterface.getParticleVelocities,
         OpenMMBrookInterface.getParticleForces.
  all: fold positions velocities forces.
  all: destruct ((length positions =? length vmasses)%nat
                 && (length velocities =? length vmasses)%nat
                 && (length forces =? length vmasses)%nat);
       cbn [negb]; run_method; [ | reflexivity].
  all: destruct (BrookVerletDynamics.advance _ _ positions velocities forces)
         as [candidate velocities'].
  all: cbn [fst snd].
  all: destruct (BrookShakeAlgorithm.project shake positions candidate)
         as [corrected status].
  all: run_method; reflexivity.
Qed.

(** [execute] before [initialize]: the first thing it does is to call a
    method through the null [_brookVerletDynamics]. *)
Lemma execute_uninitialized (integrator : VerletIntegrator.t) (k : t) :
  _brookVerletDynamics k = None ->
  execute integrator k
  = {| result := inl NullPointerDereference; state := k; calls := [] |}.
Proof.
  intros Hvd. destruct k as [lg vd sa iface wr]. cbn in Hvd. subst vd.
  unfold execute. run_method. reflexivity.
Qed.

End WithHeaders.

End KernelFacts.

(** ** The step-size check of [execute] *)

Module StepSize.

Import BrookIntegrateVerletStepKernel.

Section WithHeaders.
Context `{BH : BrookHeaders}.

(** C1: on every call of [execute] on a kernel that has been set up,
    [updateParameters] is invoked, with the configured step size, if and
    only if the absolute difference between the configured and the cached
    step size exceeds epsilon; when it does not, no [updateParameters] call
    is made and the dynamics object, cached step size included, is what it
    was. *)
Theorem execute_refreshes_iff_step_size_changed
    (integrator : VerletIntegrator.t) (k : t)
    (dynamics : BrookVerletDynamics.t) :
  _brookVerletDynamics k = Some dynamics ->
  let stepSize := VerletIntegrator.getStepSize integrator in
  let difference :=
    FP.sub stepSize (toDouble (BrookVerletDynamics.stepSize dynamics)) in
  let epsilon := FP.decimal 1 (-4) in
  let o := execute integrator k in
  (In (UpdateParametersCalled stepSize) (calls o)
   <-> FP.gtb (FP.fabs difference) epsilon = true)
  /\ (forall s, In (UpdateParametersCalled s) (calls o) -> s = stepSize)
  /\ (FP.gtb (FP.fabs difference) epsilon = true ->
      exists dynamics',
        _brookVerletDynamics (state o) = Some dynamics'
        /\ BrookVerletDynamics.stepSize dynamics'
           = toBrookOpenMMFloat stepSize)
  /\ (FP.gtb (FP.fabs difference) epsilon = false ->
      _brookVerletDynamics (state o) = Some dynamics).
Proof.
  intros Hvd stepSize difference epsilon o. subst o.
  rewrite (KernelFacts.execute_outcome integrator k dynamics Hvd).
  fold stepSize difference epsilon.
  destruct (FP.gtb (FP.fabs difference) epsilon);
    destruct (_brookShakeAlgorithm k) as [shake | ];
    try destruct (_ && _);
    cbn [calls state app In _brookVerletDynamics set_brookVerletDynamics
         set_streams BrookVerletDynamics.stepSize];
    repeat split; intros;
    try discriminate; try reflexivity; eauto;
    repeat match goal with
           | H : _ \/ _ |- _ => destruct H
           | H : False |- _ => destruct H
           | H : UpdateParametersCalled _ = UpdateParametersCalled _ |- _ =>
               injection H as H
           end;
    try discriminate; auto.
Qed.

(** C10: the threshold of the step-size check is the absolute constant
    1.0e-04, whatever the magnitude of the step sizes: whenever the absolute
    difference between the configured and the cached step size is at most
    1.0e-04, [execute] does not invoke [updateParameters] and leaves the
    dynamics object as it was. *)
Theorem execute_threshold_is_absolute
    (integrator : VerletIntegrator.t) (k : t)
    (dynamics : BrookVerletDynamics.t) :
  _brookVerletDynamics k = Some dynamics ->
  FP.leb
    (FP.fabs (FP.sub (VerletIntegrator.getStepSize integrator)
                (toDouble (BrookVerletDynamics.stepSize dynamics))))
    (FP.decimal 1 (-4)) = true ->
  (forall s, ~ In (UpdateParametersCalled s) (calls (execute integrator k)))
  /\ _brookVerletDynamics (state (execute integrator k)) = Some dynamics.
Proof.
  intros Hvd Hle. apply FPFacts.leb_not_gtb in Hle.
  rewrite (KernelFacts.execute_outcome integrator k dynamics Hvd).
  rewrite Hle.
  destruct (_brookShakeAlgorithm k) as [shake | ];
    try destruct (_ && _);
    cbn [calls state app In _brookVerletDynamics set_brookVerletDynamics
         set_streams];
    split; try reflexivity; intros s Hin;
    repeat match goal with
           | H : _ \/ _ |- _ => destruct H
           | H : False |- _ => destruct H
           end;
    discriminate.
Qed.

End WithHeaders.

#[local] Existing Instance brookSinglePrecision.

(** The first step of the two-particle scenario: the cached step size is
    still the one of the constructor, the configured one is 0.001, and the
    parameters are refreshed. *)
Lemma execute_refreshes_iff_step_size_changed_witness :
  _brookVerletDynamics Scenario.ready = Some Scenario.readyDynamics
  /\ In (UpdateParametersCalled (FP.decimal 1 (-3)))
        (calls (execute Scenario.integrator Scenario.ready)).
Proof.
  assert (Hvd : _brookVerletDynamics Scenario.ready
                = Some Scenario.readyDynamics)
    by (vm_compute; reflexivity).
  split; [exact Hvd | ].
  apply (execute_refreshes_iff_step_size_changed
           Scenario.integrator Scenario.ready Scenario.readyDynamics Hvd).
  vm_compute. reflexivity.
Defined.

(** Cached 1.0e-05, configured 9.0e-05: nine times the cached step size,
    and no refresh. *)
Lemma execute_threshold_is_absolute_witness :
  _brookVerletDynamics Scenario.slow = Some Scenario.slowDynamics
  /\ FP.leb
       (FP.fabs (FP.sub (VerletIntegrator.getStepSize Scenario.faster)
                   (toDouble (BrookVerletDynamics.stepSize
                                Scenario.slowDynamics))))
       (FP.decimal 1 (-4)) = true
  /\ (forall s, ~ In (UpdateParametersCalled s)
                    (calls (execute Scenario.faster Scenario.slow)))
  /\ _brookVerletDynamics (state (execute Scenario.faster Scenario.slow))
     = Some Scenario.slowDynamics.
Proof.
  assert (Hvd : _brookVerletDynamics Scenario.slow
                = Some Scenario.slowDynamics)
    by (vm_compute; reflexivity).
  assert (Hle : FP.leb
       (FP.fabs (FP.sub (VerletIntegrator.getStepSize Scenario.faster)
                   (toDouble (BrookVerletDynamics.stepSize
                                Scenario.slowDynamics))))
       (FP.decimal 1 (-4)) = true)
    by (vm_compute; reflexivity).
  split; [exact Hvd | split; [exact Hle | ]].
  exact (execute_threshold_is_absolute
           Scenario.faster Scenario.slow Scenario.slowDynamics Hvd Hle).
Defined.

End StepSize.

(** ** The order of a step *)

Module StepOrder.

Import BrookIntegrateVerletStepKernel.

Section WithHeaders.
Context `{BH : BrookHeaders}.

(** C8: every call of [execute] that completes has made its calls in this
    order: first the step-size check with the refresh of the cached step
    size if the check asks for it, then the Verlet advance from the current
    positions, velocities and forces with the cached step size as the check
    left it, then the SHAKE projection of the candidate positions that the
    advance produced against the pre-step positions; the positions written
    back are those of the projection. *)
Theorem execute_check_then_advance_then_project
    (integrator : VerletIntegrator.t) (k : t) :
  completes (execute integrator k) ->
  exists (dynamics : BrookVerletDynamics.t) (shake : BrookShakeAlgorithm.t),
    _brookVerletDynamics k = Some dynamics
    /\ _brookShakeAlgorithm k = Some shake
    /\ let stepSize := VerletIntegrator.getStepSize integrator in
       let changed :=
         FP.gtb (FP.fabs (FP.sub stepSize
                   (toDouble (BrookVerletDynamics.stepSize dynamics))))
                (FP.decimal 1 (-4)) in
       let h :=
         toDouble (if changed then toBrookOpenMMFloat stepSize
                   else BrookVerletDynamics.stepSize dynamics) in
       let positions :=
         OpenMMBrookInterface.particlePositions (_openMMBrookInterface k) in
       let velocities :=
         OpenMMBrookInterface.particleVelocities (_openMMBrookInterface k) in
       let forces :=
         OpenMMBrookInterface.particleForces (_openMMBrookInterface k) in
       let advanced :=
         BrookVerletDynamics.advance h
           (map BrookShakeAlgorithm.inverseMass
              (BrookVerletDynamics.masses dynamics))
           positions velocities forces in
       let projected :=
         BrookShakeAlgorithm.project shake positions (fst advanced) in
       calls (execute integrator k)
       = (if changed then [UpdateParametersCalled stepSize] else [])
         ++ [UpdateCalled;
             VerletAdvance positions velocities forces h;
             ShakeProject positions (fst advanced) (snd projected)]
       /\ OpenMMBrookInterface.particlePositions
            (_openMMBrookInterface (state (execute integrator k)))
          = fst projected.
Proof.
  intros [a Hdone].
  destruct (_brookVerletDynamics k) as [dynamics | ] eqn:Hvd.
  2: { rewrite (KernelFacts.execute_uninitialized integrator k Hvd) in Hdone.
       discriminate. }
  rewrite (KernelFacts.execute_outcome integrator k dynamics Hvd) in Hdone |- *.
  destruct (_brookShakeAlgorithm k) as [shake | ]; [ | discriminate].
  destruct (_ && _); [ | discriminate].
  exists dynamics, shake. split; [reflexivity | split; [reflexivity | ]].
  cbn zeta. split.
  - cbn [calls]. destruct (FP.gtb _ _); reflexivity.
  - destruct (FP.gtb _ _); reflexivity.
Qed.

End WithHeaders.

#[local] Existing Instance brookSinglePrecision.

(** The first step of the two-particle scenario completes: refresh, advance,
    projection, in this order. *)
Lemma execute_check_then_advance_then_project_witness :
  completes (execute Scenario.integrator Scenario.ready)
  /\ exists h candidate status,
       calls (execute Scenario.integrator Scenario.ready)
       = [UpdateParametersCalled (FP.decimal 1 (-3));
          UpdateCalled;
          VerletAdvance [Scenario.origin; Scenario.unitX] [vzero; vzero]
            [vzero; vzero] h;
          ShakeProject [Scenario.origin; Scenario.unitX] candidate status].
Proof.
  assert (Hdone : completes (execute Scenario.integrator Scenario.ready))
    by (exists tt; vm_compute; reflexivity).
  split; [exact Hdone | ].
  destruct (execute_check_then_advance_then_project
              Scenario.integrator Scenario.ready Hdone)
    as (dynamics & shake & Hvd & _ & Hcalls & _).
  assert (Hd : dynamics = Scenario.readyDynamics).
  { vm_compute in Hvd. injection Hvd as <-. vm_compute. reflexivity. }
  subst dynamics. cbv zeta in Hcalls.
  replace (FP.gtb _ _) with true in Hcalls by (vm_compute; reflexivity).
  eexists _, _, _. exact Hcalls.
Defined.

End StepOrder.

(** ** Setup *)

Module Setup.

Import BrookIntegrateVerletStepKernel.

Section WithHeaders.
Context `{BH : BrookHeaders}.

Lemma checkConstraint_stored (n : nat) (ci : System.ConstraintInfo)
    (c : BrookShakeAlgorithm.Constraint) :
  BrookShakeAlgorithm.checkConstraint n (indicesOf ci) (System.distance ci)
  = inr c ->
  Caller.storedAs c ci.
Proof.
  unfold BrookShakeAlgorithm.checkConstraint, indicesOf, Caller.storedAs.
  destruct (negb _) eqn:Hrange; [discriminate | ].
  destruct (_ =? _); [discriminate | ].
  destruct (FP.leb _ _); [discriminate | ].
  intros [= <-]. cbn.
  apply negb_false_iff in Hrange.
  rewrite !andb_true_iff in Hrange.
  destruct Hrange as [[[Ha _] Hb] _].
  apply Z.leb_le in Ha, Hb.
  rewrite !Z2Nat.id by assumption. repeat split; reflexivity.
Qed.

Lemma checkConstraints_stored (n : nat) (cis : list System.ConstraintInfo) :
  forall cs,
    BrookShakeAlgorithm.checkConstraints n (map indicesOf cis)
      (map System.distance cis) = inr cs ->
    Forall2 Caller.storedAs cs cis.
Proof.
  induction cis as [ | ci cis IH]; intros cs;
    cbn [map BrookShakeAlgorithm.checkConstraints].
  - intros [= <-]. constructor.
  - destruct (BrookShakeAlgorithm.checkConstraint n (indicesOf ci)
                (System.distance ci)) as [e | c] eqn:Hc; [discriminate | ].
    destruct (BrookShakeAlgorithm.checkConstraints n (map indicesOf cis)
                (map System.distance cis)) as [e | cs'] eqn:Hcs;
      [discriminate | ].
    intros [= <-]. constructor.
    + now apply (checkConstraint_stored n).
    + now apply IH.
Qed.

(** C4: every call of [initialize] that completes leaves a SHAKE solver
    whose maximum iteration count is 40. *)
Theorem initialize_sets_max_iterations_to_40
    (system : System.t) (integrator : VerletIntegrator.t) (k : t) :
  completes (initialize system integrator k) ->
  exists shake,
    _brookShakeAlgorithm (state (initialize system integrator k)) = Some shake
    /\ BrookShakeAlgorithm.maxIterations shake = 40.
Proof.
  rewrite KernelFacts.initialize_outcome.
  destruct (BrookShakeAlgorithm.checkConstraints _ _ _) as [e | cs].
  - intros [a Ha]. discriminate.
  - intros _. eexists. split; reflexivity.
Qed.

(** C5: every call of [initialize] that completes leaves a SHAKE solver
    whose tolerance is the constraint tolerance configured in the
    integrator, converted to [BrookOpenMMFloat]. *)
Theorem initialize_installs_integrator_tolerance
    (system : System.t) (integrator : VerletIntegrator.t) (k : t) :
  completes (initialize system integrator k) ->
  exists shake,
    _brookShakeAlgorithm (state (initialize system integrator k)) = Some shake
    /\ BrookShakeAlgorithm.shakeTolerance shake
       = toBrookOpenMMFloat
           (VerletIntegrator.getConstraintTolerance integrator).
Proof.
  rewrite KernelFacts.initialize_outcome.
  destruct (BrookShakeAlgorithm.checkConstraints _ _ _) as [e | cs].
  - intros [a Ha]. discriminate.
  - intros _. eexists. split; reflexivity.
Qed.

(** C6: [initialize] builds the mass sequence and the constraint vectors
    from the system: as many masses as particles, entry ii being the mass
    of particle ii; as many index pairs and lengths as constraints, entries
    ii being the pair and the distance of [getConstraintParameters( ii )].
    It hands them to the [setup] of the two collaborators, once each, and
    when it completes they are the tables the collaborators hold, in the
    order of the system and pair by pair with their distances. *)
Theorem initialize_builds_tables_from_topology
    (system : System.t) (integrator : VerletIntegrator.t) (k : t) :
  let o := initialize system integrator k in
  let masses := collectMasses system in
  let indices := fst (collectConstraints system) in
  let lengths := snd (collectConstraints system) in
  length masses = System.getNumParticles system
  /\ (forall ii, (ii < System.getNumParticles system)%nat ->
      masses !! ii = Some (System.getParticleMass system ii))
  /\ length indices = System.getNumConstraints system
  /\ length lengths = System.getNumConstraints system
  /\ (forall ii, (ii < System.getNumConstraints system)%nat ->
      indices !! ii
      = Some [fst (fst (System.getConstraintParameters system ii));
              snd (fst (System.getConstraintParameters system ii))]
      /\ lengths !! ii
         = Some (snd (System.getConstraintParameters system ii)))
  /\ calls o = [VerletSetupCalled masses;
                ShakeSetupCalled masses indices lengths]
  /\ (completes o ->
      exists dynamics shake,
        _brookVerletDynamics (state o) = Some dynamics
        /\ _brookShakeAlgorithm (state o) = Some shake
        /\ BrookVerletDynamics.masses dynamics = masses
        /\ BrookShakeAlgorithm.masses shake = masses
        /\ Forall2 Caller.storedAs (BrookShakeAlgorithm.constraints shake)
             (System.constraints system)).
Proof.
  intros o masses indices lengths. subst o masses indices lengths.
  rewrite Loops.collectMasses_eq, Loops.collectConstraints_eq.
  cbn [fst snd].
  unfold System.getNumParticles, System.getNumConstraints,
    System.getParticleMass, System.getConstraintParameters.
  rewrite !length_map.
  split; [reflexivity | ].
  split.
  { intros ii Hii.
    destruct (nth_lookup_or_length (System.masses system) ii FP.zero);
      [assumption | lia]. }
  split; [reflexivity | ].
  split; [reflexivity | ].
  split.
  { intros ii Hii. cbn [fst snd].
    rewrite !list_lookup_fmap.
    destruct (nth_lookup_or_length (System.constraints system) ii
                {| System.particle1 := 0; System.particle2 := 0;
                   System.distance := FP.zero |}) as [-> | ]; [ | lia].
    split; reflexivity. }
  rewrite KernelFacts.initialize_outcome.
  destruct (BrookShakeAlgorithm.checkConstraints _ _ _) as [e | cs] eqn:Hcs.
  - split; [reflexivity | ]. intros [a Ha]. discriminate.
  - split; [reflexivity | ]. intros _.
    eexists _, _. repeat (split; [reflexivity | ]).
    cbn [BrookShakeAlgorithm.constraints].
    now apply (checkConstraints_stored _ _ _ Hcs).
Qed.

(** C7: a second call of [initialize] on the same system and integrator
    leaves the kernel exactly as the first call left it, MassTable and
    ConstraintSet included, and ends the same way. *)
Theorem initialize_twice_same_tables
    (system : System.t) (integrator : VerletIntegrator.t) (k : t) :
  let first := initialize system integrator k in
  let second := initialize system integrator (state first) in
  state second = state first
  /\ result second = result first
  /\ (BrookVerletDynamics.masses <$> _brookVerletDynamics (state second))
     = (BrookVerletDynamics.masses <$> _brookVerletDynamics (state first))
  /\ (BrookShakeAlgorithm.masses <$> _brookShakeAlgorithm (state second))
     = (BrookShakeAlgorithm.masses <$> _brookShakeAlgorithm (state first))
  /\ (BrookShakeAlgorithm.constraints
       <$> _brookShakeAlgorithm (state second))
     = (BrookShakeAlgorithm.constraints
          <$> _brookShakeAlgorithm (state first)).
Proof.
  intros first second.
  assert (Hsame : state second = state first /\ result second = result first).
  { subst second first.
    rewrite (KernelFacts.initialize_outcome system integrator k).
    destruct (BrookShakeAlgorithm.checkConstraints _ _ _) as [e | cs] eqn:Hcs;
      cbn [state result];
      rewrite KernelFacts.initialize_outcome, Hcs;
      split; reflexivity. }
  destruct Hsame as [Hstate Hresult].
  rewrite Hstate. repeat split; assumption.
Qed.






End WithHeaders.

#[local] Existing Instance brookSinglePrecision.



(** The setup of the two-particle scenario completes, with 40 as the
    iteration cap. *)
Lemma initialize_sets_max_iterations_to_40_witness :
  completes (initialize Scenario.rigidPair Scenario.integrator
               (constructor Scenario.silent Scenario.streams))
  /\ exists shake,
       _brookShakeAlgorithm Scenario.ready = Some shake
       /\ BrookShakeAlgorithm.maxIterations shake = 40.
Proof.
  assert (Hdone : completes (initialize Scenario.rigidPair Scenario.integrator
                               (constructor Scenario.silent Scenario.streams)))
    by (exists tt; vm_compute; reflexivity).
  split; [exact Hdone | ].
  exact (initialize_sets_max_iterations_to_40 _ _ _ Hdone).
Defined.

(** The setup of the two-particle scenario completes, with the single
    precision value of 1.0e-05 as the tolerance. *)
Lemma initialize_installs_integrator_tolerance_witness :
  completes (initialize Scenario.rigidPair Scenario.integrator
               (constructor Scenario.silent Scenario.streams))
  /\ exists shake,
       _brookShakeAlgorithm Scenario.ready = Some shake
       /\ BrookShakeAlgorithm.shakeTolerance shake
          = FP.roundToSingle (FP.decimal 1 (-5)).
Proof.
  assert (Hdone : completes (initialize Scenario.rigidPair Scenario.integrator
                               (constructor Scenario.silent Scenario.streams)))
    by (exists tt; vm_compute; reflexivity).
  split; [exact Hdone | ].
  exact (initialize_installs_integrator_tolerance _ _ _ Hdone).
Defined.

End Setup.

(** ** The log sink *)

Module LogSink.

Import BrookIntegrateVerletStepKernel.

Section WithHeaders.
Context `{BH : BrookHeaders}.

Lemma constructor_alike (platform1 platform2 : BrookPlatform.t)
    (interface : OpenMMBrookInterface.t) :
  Caller.eraseLog (constructor platform1 interface)
  = Caller.eraseLog (constructor platform2 interface).
Proof.
  unfold constructor.
  destruct (BrookPlatform.getLog platform1),
           (BrookPlatform.getLog platform2); reflexivity.
Qed.

Lemma initialize_alike (system : System.t) (integrator : VerletIntegrator.t)
    (k1 k2 : t) :
  Caller.eraseLog k1 = Caller.eraseLog k2 ->
  Caller.alike (initialize system integrator k1) (initialize system integrator k2).
Proof.
  intros Hk. unfold Caller.alike. rewrite !KernelFacts.initialize_outcome.
  destruct k1 as [lg1 vd1 sa1 iface1 wr1], k2 as [lg2 vd2 sa2 iface2 wr2].
  injection Hk as _ _ <- <-.
  destruct (BrookShakeAlgorithm.checkConstraints _ _ _);
    repeat split; reflexivity.
Qed.

Lemma execute_alike (integrator : VerletIntegrator.t) (k1 k2 : t) :
  Caller.eraseLog k1 = Caller.eraseLog k2 ->
  Caller.alike (execute integrator k1) (execute integrator k2).
Proof.
  intros Hk. unfold Caller.alike.
  destruct k1 as [lg1 vd1 sa1 iface1 wr1], k2 as [lg2 vd2 sa2 iface2 wr2].
  injection Hk as Hvd Hsa <- <-.
  destruct vd1 as [[vlog1 vmasses1 vstep1] | ],
           vd2 as [[vlog2 vmasses2 vstep2] | ]; try discriminate.
  2: { rewrite !KernelFacts.execute_uninitialized by reflexivity.
       cbn [result state calls]. unfold Caller.eraseLog.
       cbn [_log _brookVerletDynamics _brookShakeAlgorithm
            _openMMBrookInterface written fmap option_fmap option_map].
       rewrite <- Hsa. repeat split; reflexivity. }
  injection Hvd as <- <-.
  rewrite (KernelFacts.execute_outcome integrator
             {| _log := lg1;
                _brookVerletDynamics :=
                  Some {| BrookVerletDynamics.log := vlog1;
                          BrookVerletDynamics.masses := vmasses1;
                          BrookVerletDynamics.stepSize := vstep1 |};
                _brookShakeAlgorithm := sa1;
                _openMMBrookInterface := iface1;
                written := wr1 |} _ eq_refl).
  rewrite (KernelFacts.execute_outcome integrator
             {| _log := lg2;
                _brookVerletDynamics :=
                  Some {| BrookVerletDynamics.log := vlog2;
                          BrookVerletDynamics.masses := vmasses1;
                          BrookVerletDynamics.stepSize := vstep1 |};
                _brookShakeAlgorithm := sa2;
                _openMMBrookInterface := iface1;
                written := wr1 |} _ eq_refl).
  cbn [_brookShakeAlgorithm _openMMBrookInterface BrookVerletDynamics.masses
       BrookVerletDynamics.stepSize BrookVerletDynamics.log].
  destruct sa1 as [[slog1 smasses1 scs1 stol1 smax1] | ],
           sa2 as [[slog2 smasses2 scs2 stol2 smax2] | ]; try discriminate.
  - injection Hsa as <- <- <- <-.
    unfold BrookShakeAlgorithm.project.
    cbn [BrookShakeAlgorithm.masses BrookShakeAlgorithm.constraints
         BrookShakeAlgorithm.shakeTolerance BrookShakeAlgorithm.maxIterations].
    destruct (_ && _); destruct (FP.gtb _ _); repeat split; reflexivity.
  - destruct (FP.gtb _ _); repeat split; reflexivity.
Qed.

Lemma executeAll_alike (integrators : list VerletIntegrator.t) :
  forall k1 k2,
    Caller.eraseLog k1 = Caller.eraseLog k2 ->
    Caller.alike (Caller.executeAll integrators k1)
          (Caller.executeAll integrators k2).
Proof.
  induction integrators as [ | integrator integrators IH]; intros k1 k2 Hk;
    cbn [Caller.executeAll].
  - repeat split; assumption.
  - destruct (execute_alike integrator k1 k2 Hk) as (Hr & Hc & Hs).
    destruct (result (execute integrator k1)) as [e | []] eqn:H1.
    + rewrite (MonadFacts.bind_throws _ _ k1 e H1).
      rewrite (MonadFacts.bind_throws _ _ k2 e) by congruence.
      repeat split; assumption.
    + rewrite (MonadFacts.bind_returns _ _ k1 tt H1).
      rewrite (MonadFacts.bind_returns _ _ k2 tt) by congruence.
      destruct (IH _ _ Hs) as (Hr' & Hc' & Hs').
      repeat split; cbn [result state calls]; congruence.
Qed.

(** C9: two runs of [initialize] followed by any number of steps, on the
    same system, integrators and streams, one on a platform with a log and
    one on a platform without (or with another log), end the same way, make
    the same calls on the same arguments, and leave kernels that differ in
    the log sinks only: same tables, tolerance, iteration cap and cached
    step size, same positions and velocities, same text printed. *)
Theorem log_sink_changes_nothing
    (platform1 platform2 : BrookPlatform.t)
    (interface : OpenMMBrookInterface.t) (system : System.t)
    (integrator : VerletIntegrator.t)
    (integrators : list VerletIntegrator.t) :
  let run platform :=
    Caller.simulate system integrator integrators
      (constructor platform interface) in
  result (run platform1) = result (run platform2)
  /\ calls (run platform1) = calls (run platform2)
  /\ Caller.eraseLog (state (run platform1))
     = Caller.eraseLog (state (run platform2))
  /\ _openMMBrookInterface (state (run platform1))
     = _openMMBrookInterface (state (run platform2))
  /\ written (state (run platform1)) = written (state (run platform2)).
Proof.
  intros run.
  assert (Halike : Caller.alike (run platform1) (run platform2)).
  { subst run. cbv beta. unfold Caller.simulate.
    pose proof (constructor_alike platform1 platform2 interface) as Hk.
    destruct (initialize_alike system integrator _ _ Hk) as (Hr & Hc & Hs).
    destruct (result (initialize system integrator
                        (constructor platform1 interface)))
      as [e | []] eqn:H1.
    - rewrite (MonadFacts.bind_throws _ _ _ e H1).
      rewrite (MonadFacts.bind_throws _ _ _ e) by congruence.
      repeat split; assumption.
    - rewrite (MonadFacts.bind_returns _ _ _ tt H1).
      rewrite (MonadFacts.bind_returns _ _ _ tt) by congruence.
      destruct (executeAll_alike integrators _ _ Hs) as (Hr' & Hc' & Hs').
      repeat split; cbn [result state calls]; congruence. }
  destruct Halike as (Hr & Hc & Hs).
  repeat split; try assumption.
  - apply (f_equal _openMMBrookInterface) in Hs. exact Hs.
  - apply (f_equal written) in Hs. exact Hs.
Qed.

End WithHeaders.

End LogSink.

(** ** The convergence status *)

Module Convergence.

Import BrookIntegrateVerletStepKernel.

Section WithHeaders.
Context `{BH : BrookHeaders}.

(** C2, as amended: [execute] returns no convergence status.  Whenever the
    SHAKE projection of a step ends without convergence, [execute] still
    returns normally, prints nothing, and writes the best-effort positions
    of the projection into the position array; the status that the
    projection reports is dropped. *)
Theorem execute_drops_convergence_status
    (integrator : VerletIntegrator.t) (k : t)
    (oldPositions candidatePositions : list Vec3) :
  In (ShakeProject oldPositions candidatePositions false)
     (calls (execute integrator k)) ->
  exists shake,
    _brookShakeAlgorithm k = Some shake
    /\ BrookShakeAlgorithm.project shake oldPositions candidatePositions
       = (OpenMMBrookInterface.particlePositions
            (_openMMBrookInterface (state (execute integrator k))),
          false)
    /\ result (execute integrator k) = inr tt
    /\ written (state (execute integrator k)) = written k.
Proof.
  destruct (_brookVerletDynamics k) as [dynamics | ] eqn:Hvd.
  2: { rewrite (KernelFacts.execute_uninitialized integrator k Hvd).
       intros []. }
  rewrite (KernelFacts.execute_outcome integrator k dynamics Hvd).
  destruct (_brookShakeAlgorithm k) as [shake | ].
  2: { cbn [calls]. destruct (FP.gtb _ _); cbn [In];
       intros H; repeat destruct H as [H | H]; try discriminate; destruct H. }
  destruct (_ && _).
  2: { cbn [calls]. destruct (FP.gtb _ _); cbn [app In];
       intros H; repeat destruct H as [H | H]; try discriminate; destruct H. }
  cbv zeta. cbn [calls result state].
  intros Hin. exists shake. split; [reflexivity | ].
  apply in_app_or in Hin. destruct Hin as [Hin | Hin].
  { destruct (FP.gtb _ _); cbn [In] in Hin;
      [destruct Hin as [Hin | []]; discriminate | destruct Hin]. }
  cbn [In] in Hin.
  destruct Hin as [Hin | [Hin | [Hin | []]]]; try discriminate.
  injection Hin as <- <- Hstatus.
  split.
  - rewrite <- Hstatus. apply surjective_pairing.
  - split; reflexivity.
Qed.

End WithHeaders.

#[local] Existing Instance brookSinglePrecision.

(** A step on [Scenario.stuck]: neither particle can move, the constraint
    stays violated, and the projection gives up after its 40 passes. *)
Lemma stuck_does_not_converge :
  In (ShakeProject [Scenario.origin; Scenario.unitX]
        [Scenario.origin; Scenario.unitX] false)
     (calls (execute Scenario.integrator Scenario.stuck)).
Proof.
  vm_compute. right. right. right. left. reflexivity.
Qed.

(** The same step on [Scenario.content], whose tolerance is loose enough. *)
Lemma content_converges :
  In (ShakeProject [Scenario.origin; Scenario.unitX]
        [Scenario.origin; Scenario.unitX] true)
     (calls (execute Scenario.loose Scenario.content)).
Proof.
  vm_compute. right. right. right. left. reflexivity.
Qed.

(** Both steps hand the same thing back to the caller. *)
Lemma stuck_and_content_look_alike :
  Caller.observation (execute Scenario.integrator Scenario.stuck)
  = Caller.observation (execute Scenario.loose Scenario.content).
Proof. vm_compute. reflexivity. Qed.

(** C2, as stated, fails: nothing that a caller gets back from [execute]
    tells a step whose projection did not converge from one whose
    projection did. *)
Lemma convergence_status_is_not_observable :
  ~ exists report, Caller.reportsConvergence report.
Proof.
  intros [report Hreport].
  pose proof (Hreport _ _ _ _ _ stuck_does_not_converge) as Hstuck.
  pose proof (Hreport _ _ _ _ _ content_converges) as Hcontent.
  rewrite stuck_and_content_look_alike in Hstuck.
  congruence.
Qed.

(** The step on [Scenario.stuck] does not converge, and returns as any
    other step does. *)
Lemma execute_drops_convergence_status_witness :
  In (ShakeProject [Scenario.origin; Scenario.unitX]
        [Scenario.origin; Scenario.unitX] false)
     (calls (execute Scenario.integrator Scenario.stuck))
  /\ result (execute Scenario.integrator Scenario.stuck) = inr tt
  /\ written (state (execute Scenario.integrator Scenario.stuck)) = [].
Proof.
  assert (Hin : In (ShakeProject [Scenario.origin; Scenario.unitX]
                      [Scenario.origin; Scenario.unitX] false)
                   (calls (execute Scenario.integrator Scenario.stuck)))
    by (vm_compute; right; right; right; left; reflexivity).
  split; [exact Hin | ].
  destruct (execute_drops_convergence_status Scenario.integrator
              Scenario.stuck _ _ Hin)
    as (shake & _ & _ & Hresult & Hwritten).
  split; [exact Hresult | ].
  rewrite Hwritten. vm_compute. reflexivity.
Defined.

End Convergence.

(** ** The log accessors and the constructor *)

Module Accessors.

Import BrookIntegrateVerletStepKernel.

Section WithHeaders.
Context `{BH : BrookHeaders}.

(** X1: [getLog] after [setLog( log )] returns [log], whatever the log was
    before and also for [NULL]; [setLog] returns [DefaultReturnValue], calls
    no collaborator and changes no other member, and of two [setLog] calls
    the second one wins. *)
Theorem setLog_then_getLog (log previous : option FILE) (k : t) :
  result ((setLog log ;; getLog) k) = inr log
  /\ result ((setLog previous ;; setLog log ;; getLog) k) = inr log
  /\ result (setLog log k) = inr DefaultReturnValue
  /\ calls (setLog log k) = []
  /\ state (setLog log k)
     = {| _log := log;
          _brookVerletDynamics := _brookVerletDynamics k;
          _brookShakeAlgorithm := _brookShakeAlgorithm k;
          _openMMBrookInterface := _openMMBrookInterface k;
          written := written k |}.
Proof.
  unfold setLog, getLog, bind, modify, gets, ret, set_log.
  cbn [result state calls _log]. repeat split; reflexivity.
Qed.

(** X2: the kernel that the constructor leaves has the log of the platform,
    whether the platform has one or not, two null collaborator pointers and
    the interface it was given; [getLog] on it returns the log of the
    platform. *)
Theorem constructor_takes_platform_log (platform : BrookPlatform.t)
    (openMMBrookInterface : OpenMMBrookInterface.t) :
  let k := constructor platform openMMBrookInterface in
  _log k = BrookPlatform.getLog platform
  /\ result (getLog k) = inr (BrookPlatform.getLog platform)
  /\ _brookVerletDynamics k = None
  /\ _brookShakeAlgorithm k = None
  /\ _openMMBrookInterface k = openMMBrookInterface.
Proof.
  unfold constructor, getLog, gets.
  destruct (BrookPlatform.getLog platform) as [f | ]; cbn;
    repeat split; reflexivity.
Qed.

(** X3: [execute] on a kernel that was constructed and never initialized
    dereferences the null [_brookVerletDynamics]: it faults before it calls
    anything and leaves the kernel and the streams as they were; so does a
    caller that starts stepping right away. *)
Theorem execute_before_initialize_faults (platform : BrookPlatform.t)
    (openMMBrookInterface : OpenMMBrookInterface.t)
    (integrator : VerletIntegrator.t)
    (integrators : list VerletIntegrator.t) :
  let k := constructor platform openMMBrookInterface in
  execute integrator k
  = {| result := inl NullPointerDereference; state := k; calls := [] |}
  /\ Caller.executeAll (integrator :: integrators) k
     = {| result := inl NullPointerDereference; state := k; calls := [] |}.
Proof.
  intros k.
  assert (Hnull : _brookVerletDynamics k = None).
  { subst k. unfold constructor.
    destruct (BrookPlatform.getLog platform); reflexivity. }
  pose proof (KernelFacts.execute_uninitialized integrator k Hnull) as Hex.
  split; [exact Hex | ].
  cbn [Caller.executeAll].
  rewrite (MonadFacts.bind_throws _ _ k NullPointerDereference)
    by (rewrite Hex; reflexivity).
  rewrite Hex. reflexivity.
Qed.

End WithHeaders.

End Accessors.

(** ** What [initialize] leaves alone and what it replaces *)

Module SetupFrame.

Import BrookIntegrateVerletStepKernel.

Section WithHeaders.
Context `{BH : BrookHeaders}.

(** X4: [initialize] prints nothing, with or without a log ([printOn] is
    0), and leaves the streams of the interface and the log of the kernel as
    they were, whether it completes or throws. *)
Theorem initialize_prints_nothing (system : System.t)
    (integrator : VerletIntegrator.t) (k : t) :
  let o := initialize system integrator k in
  written (state o) = written k
  /\ _openMMBrookInterface (state o) = _openMMBrookInterface k
  /\ _log (state o) = _log k.
Proof.
  cbv zeta. rewrite KernelFacts.initialize_outcome.
  destruct (BrookShakeAlgorithm.checkConstraints _ _ _);
    repeat split; reflexivity.
Qed.

(** X5: after a call of [initialize], completed or aborted, both
    collaborator pointers are set and both collaborators hold the log of
    the kernel: the log is passed on before the [setup] that may throw. *)
Theorem initialize_passes_log_on (system : System.t)
    (integrator : VerletIntegrator.t) (k : t) :
  let o := initialize system integrator k in
  exists dynamics shake,
    _brookVerletDynamics (state o) = Some dynamics
    /\ _brookShakeAlgorithm (state o) = Some shake
    /\ BrookVerletDynamics.log dynamics = _log k
    /\ BrookShakeAlgorithm.log shake = _log k.
Proof.
  cbv zeta. rewrite KernelFacts.initialize_outcome.
  destruct (BrookShakeAlgorithm.checkConstraints _ _ _);
    eexists _, _; repeat split; reflexivity.
Qed.

(** X6: [initialize] replaces both collaborators by new ones and reads
    nothing of the old ones: two kernels with the same log, streams and
    printed text come out of it identical, whatever collaborators they
    had.  In particular the cached step size is back at the value of the
    [BrookVerletDynamics] constructor, whatever had been cached. *)
Theorem initialize_forgets_collaborators (system : System.t)
    (integrator : VerletIntegrator.t) (k1 k2 : t) :
  _log k1 = _log k2 ->
  _openMMBrookInterface k1 = _openMMBrookInterface k2 ->
  written k1 = written k2 ->
  initialize system integrator k1 = initialize system integrator k2
  /\ (BrookVerletDynamics.stepSize
        <$> _brookVerletDynamics (state (initialize system integrator k1)))
     = Some unsetStepSize.
Proof.
  intros Hlog Hiface Hwritten.
  rewrite !KernelFacts.initialize_outcome.
  rewrite Hlog, Hiface, Hwritten.
  destruct (BrookShakeAlgorithm.checkConstraints _ _ _);
    split; reflexivity.
Qed.

(** X7: [execute] has no guard of its own: after a call of [initialize],
    whatever its result, [execute] finds both pointers set, does not fault
    on a null pointer, and calls [update]. *)
Theorem execute_after_initialize_reaches_update (system : System.t)
    (integrator0 integrator : VerletIntegrator.t) (k : t) :
  let k' := state (initialize system integrator0 k) in
  result (execute integrator k') <> inl NullPointerDereference
  /\ In UpdateCalled (calls (execute integrator k')).
Proof.
  intros k'.
  assert (Hset : exists dynamics shake,
            _brookVerletDynamics k' = Some dynamics
            /\ _brookShakeAlgorithm k' = Some shake).
  { subst k'. rewrite KernelFacts.initialize_outcome.
    destruct (BrookShakeAlgorithm.checkConstraints _ _ _);
      eexists _, _; split; reflexivity. }
  destruct Hset as (dynamics & shake & Hvd & Hsa).
  rewrite (KernelFacts.execute_outcome integrator k' dynamics Hvd), Hsa.
  destruct (_ && _); cbn [result calls]; (split; [discriminate | ]);
    apply in_or_app; right; left; reflexivity.
Qed.

End WithHeaders.

#[local] Existing Instance brookSinglePrecision.

(** A kernel that has stepped, and so caches 0.001, and the kernel as it
    was constructed: after [initialize] they are the same. *)
Lemma initialize_forgets_collaborators_witness :
  initialize Scenario.rigidPair Scenario.integrator
    (state (execute Scenario.integrator Scenario.ready))
  = initialize Scenario.rigidPair Scenario.integrator
      (constructor Scenario.silent Scenario.streams).
Proof.
  apply (initialize_forgets_collaborators Scenario.rigidPair
           Scenario.integrator
           (state (execute Scenario.integrator Scenario.ready))
           (constructor Scenario.silent Scenario.streams));
    vm_compute; reflexivity.
Defined.

End SetupFrame.

(** ** Step sizes that do not refresh *)

Module Unrefreshed.

Import BrookIntegrateVerletStepKernel.
Import StepSizeTest.

Section WithHeaders.
Context `{BH : BrookHeaders}.

Lemma quiet_step (integrator : VerletIntegrator.t) (k : t)
    (dynamics : BrookVerletDynamics.t) :
  _brookVerletDynamics k = Some dynamics ->
  fires integrator dynamics = false ->
  (forall s, ~ In (UpdateParametersCalled s) (calls (execute integrator k)))
  /\ _brookVerletDynamics (state (execute integrator k)) = Some dynamics.
Proof.
  unfold fires. intros Hvd Hquiet.
  rewrite (KernelFacts.execute_outcome integrator k dynamics Hvd).
  rewrite Hquiet.
  destruct (_brookShakeAlgorithm k) as [shake | ];
    try destruct (_ && _);
    cbn [calls state app In _brookVerletDynamics set_brookVerletDynamics
         set_streams];
    split; try reflexivity; intros s Hin;
    repeat match goal with
           | H : _ \/ _ |- _ => destruct H
           | H : False |- _ => destruct H
           end;
    discriminate.
Qed.

Lemma nan_never_fires (a b : double) :
  a = S754_nan \/ b = S754_nan ->
  FP.gtb (FP.fabs (FP.sub a b)) (FP.decimal 1 (-4)) = false.
Proof.
  rewrite FPFacts.epsilon_value.
  intros [-> | ->]; [destruct b | destruct a]; reflexivity.
Qed.

(** X8: a step size that is not a number never refreshes: when the
    configured step size is NaN, or the cached one is, [fabs( difference )
    > epsilon] is false, [execute] does not call [updateParameters] and the
    dynamics object stays as it was; a cached NaN can therefore never be
    replaced by [execute]. *)
Theorem execute_ignores_nan_step_size (integrator : VerletIntegrator.t)
    (k : t) (dynamics : BrookVerletDynamics.t) :
  _brookVerletDynamics k = Some dynamics ->
  VerletIntegrator.getStepSize integrator = S754_nan
  \/ toDouble (BrookVerletDynamics.stepSize dynamics) = S754_nan ->
  (forall s, ~ In (UpdateParametersCalled s) (calls (execute integrator k)))
  /\ _brookVerletDynamics (state (execute integrator k)) = Some dynamics.
Proof.
  intros Hvd Hnan. apply quiet_step; [exact Hvd | ].
  unfold fires. now apply nan_never_fires.
Qed.

(** X9: [execute] takes nothing but the step size from the integrator, and
    takes that only to compare it: two integrators whose step sizes both
    pass the test unnoticed give the same outcome on the same kernel, call
    by call and stream by stream, however much their step sizes differ. *)
Theorem execute_same_for_unnoticed_step_sizes
    (integrator1 integrator2 : VerletIntegrator.t) (k : t)
    (dynamics : BrookVerletDynamics.t) :
  _brookVerletDynamics k = Some dynamics ->
  fires integrator1 dynamics = false ->
  fires integrator2 dynamics = false ->
  execute integrator1 k = execute integrator2 k.
Proof.
  unfold fires. intros Hvd H1 H2.
  rewrite (KernelFacts.execute_outcome integrator1 k dynamics Hvd).
  rewrite (KernelFacts.execute_outcome integrator2 k dynamics Hvd).
  rewrite H1, H2. reflexivity.
Qed.

(** X10: as long as every configured step size stays within the test of
    the cached one, no number of steps ever calls [updateParameters], and
    the dynamics object, cached step size included, ends as it began: the
    comparison is always against the cached value, never against the
    previous configured one. *)
Theorem executeAll_never_refreshes (integrators : list VerletIntegrator.t)
    (dynamics : BrookVerletDynamics.t) :
  Forall (fun integrator => fires integrator dynamics = false) integrators ->
  forall k,
    _brookVerletDynamics k = Some dynamics ->
    (forall s, ~ In (UpdateParametersCalled s)
                    (calls (Caller.executeAll integrators k)))
    /\ _brookVerletDynamics (state (Caller.executeAll integrators k))
       = Some dynamics.
Proof.
  induction 1 as [ | integrator integrators Hquiet _ IH]; intros k Hvd;
    cbn [Caller.executeAll].
  - split; [intros s [] | exact Hvd].
  - destruct (quiet_step integrator k dynamics Hvd Hquiet) as [Hcalls Hkept].
    destruct (result (execute integrator k)) as [e | []] eqn:Hresult.
    + rewrite (MonadFacts.bind_throws _ _ k e Hresult).
      cbn [calls state]. split; assumption.
    + rewrite (MonadFacts.bind_returns _ _ k tt Hresult).
      cbn [calls state].
      destruct (IH _ Hkept) as [Hcalls' Hkept'].
      split; [ | exact Hkept'].
      intros s Hin. apply in_app_or in Hin. destruct Hin as [Hin | Hin].
      * exact (Hcalls s Hin).
      * exact (Hcalls' s Hin).
Qed.

End WithHeaders.

#[local] Existing Instance brookSinglePrecision.

(** A step of the scenario kernel with a step size that is not a number. *)
Lemma execute_ignores_nan_step_size_witness :
  _brookVerletDynamics Scenario.ready = Some Scenario.readyDynamics
  /\ _brookVerletDynamics
       (state (execute EdgeScenario.undefinedStep Scenario.ready))
     = Some Scenario.readyDynamics.
Proof.
  assert (Hvd : _brookVerletDynamics Scenario.ready
                = Some Scenario.readyDynamics)
    by (vm_compute; reflexivity).
  split; [exact Hvd | ].
  apply (execute_ignores_nan_step_size EdgeScenario.undefinedStep
           Scenario.ready Scenario.readyDynamics Hvd).
  left. reflexivity.
Defined.

(** Cached 1.0e-05: a step configured with 9.0e-05 and a step configured
    with 2.0e-05 are the same step. *)
Lemma execute_same_for_unnoticed_step_sizes_witness :
  fires Scenario.faster Scenario.slowDynamics = false
  /\ fires EdgeScenario.slower Scenario.slowDynamics = false
  /\ execute Scenario.faster Scenario.slow
     = execute EdgeScenario.slower Scenario.slow.
Proof.
  assert (H1 : fires Scenario.faster Scenario.slowDynamics = false)
    by (vm_compute; reflexivity).
  assert (H2 : fires EdgeScenario.slower Scenario.slowDynamics = false)
    by (vm_compute; reflexivity).
  split; [exact H1 | split; [exact H2 | ]].
  apply (execute_same_for_unnoticed_step_sizes Scenario.faster
           EdgeScenario.slower Scenario.slow Scenario.slowDynamics);
    [vm_compute; reflexivity | exact H1 | exact H2].
Defined.

(** Cached 1.0e-05, then steps configured with 9.0e-05, 2.0e-05 and
    9.0e-05 again. *)
Lemma executeAll_never_refreshes_witness :
  Forall (fun integrator => fires integrator Scenario.slowDynamics = false)
    [Scenario.faster; EdgeScenario.slower; Scenario.faster]
  /\ _brookVerletDynamics
       (state (Caller.executeAll
                 [Scenario.faster; EdgeScenario.slower; Scenario.faster]
                 Scenario.slow))
     = Some Scenario.slowDynamics.
Proof.
  assert (Hall : Forall
            (fun integrator => fires integrator Scenario.slowDynamics = false)
            [Scenario.faster; EdgeScenario.slower; Scenario.faster])
    by (repeat constructor; vm_compute; reflexivity).
  split; [exact Hall | ].
  apply (executeAll_never_refreshes _ Scenario.slowDynamics Hall
           Scenario.slow).
  vm_compute. reflexivity.
Defined.

End Unrefreshed.

(** ** Allocation and release of the collaborators *)

Module LifetimeFacts.

Import stdpp.gmap.

Section WithHeaders.
Context `{BH : BrookHeaders}.

(** Each [initialize] takes the next two addresses, whatever its result. *)
Lemma initialize_allocates_two (system : System.t)
    (integrator : VerletIntegrator.t) (w : Lifetime.t) :
  let n := Lifetime.next (Lifetime.store w) in
  let w' := state (Lifetime.initialize system integrator w) in
  Lifetime.dynamicsAt w' = Some n
  /\ Lifetime.shakeAt w' = Some (S n)
  /\ Lifetime.store w'
     = {| Lifetime.live :=
            {[S n]} ∪ ({[n]} ∪ Lifetime.live (Lifetime.store w));
          Lifetime.next := S (S n) |}.
Proof.
  unfold Lifetime.initialize, Lifetime.new. cbn [Lifetime.next].
  destruct (BrookIntegrateVerletStepKernel.initialize system integrator
              (Lifetime.kernel w)) as [r k c].
  repeat split; reflexivity.
Qed.

Lemma initializeAll_store (setups : list (System.t * VerletIntegrator.t)) :
  forall w : Lifetime.t,
    Lifetime.store (Lifetime.initializeAll setups w)
    = {| Lifetime.live :=
           set_seq (Lifetime.next (Lifetime.store w)) (2 * length setups)
           ∪ Lifetime.live (Lifetime.store w);
         Lifetime.next :=
           Lifetime.next (Lifetime.store w) + 2 * length setups |}.
Proof.
  induction setups as [ | [system integrator] setups IH]; intros w;
    cbn [Lifetime.initializeAll length].
  - destruct (Lifetime.store w) as [lv nx].
    cbn [Lifetime.live Lifetime.next].
    rewrite Nat.mul_0_r, Nat.add_0_r. cbn [set_seq].
    now rewrite (left_id_L ∅ (∪)).
  - rewrite IH.
    destruct (initialize_allocates_two system integrator w)
      as (_ & _ & ->).
    cbn [Lifetime.live Lifetime.next]. f_equal; [ | lia].
    apply set_eq. intros x.
    rewrite !elem_of_union, !elem_of_set_seq, !elem_of_singleton.
    intuition lia.
Qed.

Lemma initializeAll_pointers (setups : list (System.t * VerletIntegrator.t)) :
  forall (setup : System.t * VerletIntegrator.t) (w : Lifetime.t),
    let n := Lifetime.next (Lifetime.store w) + 2 * length setups in
    Lifetime.dynamicsAt (Lifetime.initializeAll (setup :: setups) w) = Some n
    /\ Lifetime.shakeAt (Lifetime.initializeAll (setup :: setups) w)
       = Some (S n).
Proof.
  induction setups as [ | setup' setups IH]; intros [system integrator] w.
  - cbn [Lifetime.initializeAll length].
    destruct (initialize_allocates_two system integrator w) as (-> & -> & _).
    rewrite Nat.mul_0_r, Nat.add_0_r. split; reflexivity.
  - change (Lifetime.initializeAll ((system, integrator) :: setup' :: setups) w)
      with (Lifetime.initializeAll (setup' :: setups)
              (state (Lifetime.initialize system integrator w))).
    destruct (IH setup' (state (Lifetime.initialize system integrator w)))
      as [Hd Hs].
    destruct (initialize_allocates_two system integrator w) as (_ & _ & Hst).
    rewrite Hst in Hd, Hs. cbn [Lifetime.next length] in Hd, Hs |- *.
    rewrite Hd, Hs. split; f_equal; lia.
Qed.

(** X11: the destructor deletes the two collaborators that the pointers
    hold at that time, and [initialize] never deletes the ones it replaces.
    So for a kernel that is constructed, initialized any number of times
    (completed or aborted) and destroyed, the destructor is well defined,
    it deletes nothing when [initialize] never ran, and of the objects that
    the calls of [initialize] allocated exactly those of the last call are
    released: the two of every earlier call stay allocated. *)
Theorem destructor_releases_last_setup_only
    (setups : list (System.t * VerletIntegrator.t))
    (platform : BrookPlatform.t)
    (openMMBrookInterface : OpenMMBrookInterface.t)
    (h0 : Lifetime.FreeStore) :
  Lifetime.wellFormed h0 ->
  exists h,
    Lifetime.destructor
      (Lifetime.initializeAll setups
         (Lifetime.constructor platform openMMBrookInterface h0)) = Some h
    /\ Lifetime.live h
       = set_seq (Lifetime.next h0) (2 * (length setups - 1))
         ∪ Lifetime.live h0
    /\ size (Lifetime.live h)
       = size (Lifetime.live h0) + 2 * (length setups - 1).
Proof.
  intros Hwf.
  assert (Hsize : forall len,
    size (set_seq (C := gset nat) (Lifetime.next h0) len ∪ Lifetime.live h0)
    = size (Lifetime.live h0) + len).
  { intros len. rewrite size_union, size_set_seq; [lia | ].
    intros x Hx Hlive. apply elem_of_set_seq in Hx.
    specialize (Hwf x Hlive). lia. }
  set (w0 := Lifetime.constructor platform openMMBrookInterface h0).
  destruct setups as [ | setup setups].
  - exists h0. split; [reflexivity | ].
    change (2 * (length (@nil (System.t * VerletIntegrator.t)) - 1)) with 0.
    split; [ | lia].
    cbn [set_seq]. now rewrite (left_id_L ∅ (∪)).
  - destruct (initializeAll_pointers setups setup w0) as [Hd Hs].
    pose proof (initializeAll_store (setup :: setups) w0) as Hst.
    cbn [Lifetime.store Lifetime.constructor w0] in Hd, Hs, Hst.
    unfold Lifetime.destructor, Lifetime.delete.
    rewrite Hd, Hs, Hst. cbn [Lifetime.live Lifetime.next length].
    set (n := Lifetime.next h0 + 2 * length setups).
    rewrite decide_True.
    2: { rewrite elem_of_union, elem_of_set_seq. left. subst n. lia. }
    cbn [Lifetime.live Lifetime.next].
    rewrite decide_True.
    2: { rewrite elem_of_difference, elem_of_union, elem_of_set_seq,
           elem_of_singleton. split; [left; subst n; lia | lia]. }
    eexists. split; [reflexivity | ].
    cbn [Lifetime.live].
    assert (Hlive :
      (set_seq (C := gset nat) (Lifetime.next h0) (2 * S (length setups))
       ∪ Lifetime.live h0) ∖ {[n]} ∖ {[S n]}
      = set_seq (Lifetime.next h0) (2 * (S (length setups) - 1))
        ∪ Lifetime.live h0).
    { apply set_eq. intros x.
      rewrite !elem_of_difference, !elem_of_union, !elem_of_set_seq,
        !elem_of_singleton.
      subst n. split.
      - intros [[[Hx | Hx] Hn] HSn]; [left; lia | right; exact Hx].
      - intros [Hx | Hx]; [repeat split; [left; lia | lia | lia] | ].
        specialize (Hwf x Hx). repeat split; [right; exact Hx | lia | lia]. }
    rewrite Hlive. split; [reflexivity | apply Hsize].
Qed.

End WithHeaders.

#[local] Existing Instance brookSinglePrecision.

(** Three setups on an empty free store, the second one aborted: four
    objects are left behind. *)
Lemma destructor_releases_last_setup_only_witness :
  Lifetime.wellFormed EdgeScenario.emptyStore
  /\ exists h,
       Lifetime.destructor
         (Lifetime.initializeAll
            [(Scenario.rigidPair, Scenario.integrator);
             (Scenario.selfPair, Scenario.integrator);
             (Scenario.rigidPair, Scenario.integrator)]
            (Lifetime.constructor Scenario.silent Scenario.streams
               EdgeScenario.emptyStore)) = Some h
       /\ size (Lifetime.live h) = 4.
Proof.
  assert (Hwf : Lifetime.wellFormed EdgeScenario.emptyStore).
  { intros a Ha. cbn in Ha. apply elem_of_empty in Ha. destruct Ha. }
  split; [exact Hwf | ].
  destruct (destructor_releases_last_setup_only
              [(Scenario.rigidPair, Scenario.integrator);
               (Scenario.selfPair, Scenario.integrator);
               (Scenario.rigidPair, Scenario.integrator)]
              Scenario.silent Scenario.streams EdgeScenario.emptyStore Hwf)
    as (h & Hh & _ & Hsize).
  exists h. split; [exact Hh | ].
  rewrite Hsize. cbn. rewrite size_empty. reflexivity.
Defined.

End LifetimeFacts.

(** ** The first step after setup *)

Module FirstStep.

Import BrookIntegrateVerletStepKernel.

Section WithHeaders.
Context `{BH : BrookHeaders}.

(** X12: [initialize] reads the constraint tolerance of the integrator and
    nothing else of it: it never calls [updateParameters], and integrators
    of equal tolerance give the same outcome whatever their step sizes.
    The configured step size is installed by the first [execute], and only
    if it differs from the step size of a fresh [BrookVerletDynamics] by
    more than epsilon. *)
Theorem step_size_is_installed_by_first_execute (system : System.t)
    (integrator0 integrator0' integrator : VerletIntegrator.t) (k : t) :
  let k' := state (initialize system integrator0 k) in
  (forall s, ~ In (UpdateParametersCalled s)
                  (calls (initialize system integrator0 k)))
  /\ (VerletIntegrator.getConstraintTolerance integrator0
      = VerletIntegrator.getConstraintTolerance integrator0' ->
      initialize system integrator0 k = initialize system integrator0' k)
  /\ (In (UpdateParametersCalled (VerletIntegrator.getStepSize integrator))
         (calls (execute integrator k'))
      <-> FP.gtb
            (FP.fabs (FP.sub (VerletIntegrator.getStepSize integrator)
                        (toDouble unsetStepSize)))
            (FP.decimal 1 (-4)) = true).
Proof.
  intros k'.
  pose proof (KernelFacts.initialize_outcome system integrator0 k) as Hinit.
  cbv zeta in Hinit.
  split; [ | split].
  - rewrite Hinit.
    destruct (BrookShakeAlgorithm.checkConstraints _ _ _);
      cbn [calls In]; intros s [H | [H | []]]; discriminate.
  - intros Htol. rewrite Hinit.
    rewrite (KernelFacts.initialize_outcome system integrator0' k).
    rewrite Htol. reflexivity.
  - assert (Hvd : _brookVerletDynamics k'
                  = Some {| BrookVerletDynamics.log := _log k;
                            BrookVerletDynamics.masses := System.masses system;
                            BrookVerletDynamics.stepSize := unsetStepSize |}).
    { subst k'. rewrite Hinit.
      destruct (BrookShakeAlgorithm.checkConstraints _ _ _); reflexivity. }
    rewrite (KernelFacts.execute_outcome integrator k' _ Hvd).
    cbn [BrookVerletDynamics.stepSize].
    destruct (FP.gtb _ _);
      destruct (_brookShakeAlgorithm k') as [shake | ];
      try destruct (_ && _);
      cbn [calls app In]; split; intros H;
      try discriminate; try reflexivity; auto;
      repeat match goal with
             | H : _ \/ _ |- _ => destruct H
             | H : False |- _ => destruct H
             end;
      discriminate.
Qed.

End WithHeaders.

End FirstStep.
